(** * Voice biometric attendance: directory, embedding store, matcher, ledger

    A shallow embedding of [main.py] (the Streamlit application).  The
    persistent state is three durable records: [students.json], one
    [.npy] file per enrolled name under [data/embeddings], and
    [attendance.json].  The module-level dictionary [students] is the
    in-memory copy of the first one.

    Numbers: an embedding is a vector of reals; the similarity is computed
    in exact real arithmetic, the idealisation of the floating point values
    that numpy and scipy produce. *)

From Stdlib Require Import Reals Lra Ascii.
From stdpp Require Import gmap strings list fin_maps sorting.

Local Open Scope string_scope.
Local Open Scope list_scope.

(** ** Data model *)

(** The JSON object stored per student (lines 106-113). *)
Record Student := mkStudent {
  name : string;
  std : string;
  div : string;
  year : string;
  roll_no : string;
  emergency_contact : string
}.

(** A voice embedding ([numpy] array of rank one). *)
Definition vec := list R.

(** Exceptions the modelled code can raise. *)
Inductive exn :=
  | FileNotFoundError   (* [np.load] on a missing file *)
  | ValueError          (* [scipy] on vectors of different shapes *)
  | OSError             (* a write the operating system refuses *)
  | JSONDecodeError.    (* [json.load] on a file that holds no document *)

Inductive result (A : Type) :=
  | Ok (a : A)
  | Raise (e : exn).
Arguments Ok {A} a.
Arguments Raise {A} e.

(** ** Python dictionaries that are iterated: insertion-ordered *)

Module Dict.
Section Dict.
Context {V : Type}.

Definition t := list (string * V).

(** [k in d] *)
Fixpoint mem (k : string) (d : t) : bool :=
  match d with
  | [] => false
  | (k', _) :: d' => if String.eqb k k' then true else mem k d'
  end.

(** [d.get(k)] *)
Fixpoint get (k : string) (d : t) : option V :=
  match d with
  | [] => None
  | (k', v) :: d' => if String.eqb k k' then Some v else get k d'
  end.

(** [d[k] = v]: an existing key keeps its position, a new one goes last. *)
Fixpoint set (k : string) (v : V) (d : t) : t :=
  match d with
  | [] => [(k, v)]
  | (k', v') :: d' =>
      if String.eqb k k' then (k, v) :: d' else (k', v') :: set k v d'
  end.

(** [del d[k]] (the caller has checked [k in d]). *)
Fixpoint del (k : string) (d : t) : t :=
  match d with
  | [] => []
  | (k', v') :: d' =>
      if String.eqb k k' then del k d' else (k', v') :: del k d'
  end.

(** [d.items()] *)
Definition items (d : t) : list (string * V) := d.
End Dict.
Arguments t : clear implicits.
End Dict.

(** ** The world: process memory and the three durable records *)

(** A file written with [open(path, 'w')] and [json.dump]: it is missing,
    or it holds the document of the last completed write, or a write that
    failed after [open] had truncated it left it without a document. *)
Inductive json_file (A : Type) :=
  | Absent
  | Holds (doc : A)
  | Torn.
Arguments Absent {A}.
Arguments Holds {A} doc.
Arguments Torn {A}.

Record World := mkWorld {
  students : Dict.t Student;                       (* global [students] *)
  students_json : json_file (Dict.t Student);      (* STUDENTS_FILE *)
  embed_dir : gmap string vec;                     (* EMBED_DIR/<name>.npy *)
  attendance_file : option (gmap string (list string))  (* ATTENDANCE_FILE *)
}.

(** The directory STUDENTS_FILE holds, when it holds one. *)
Definition students_file (w : World) : option (Dict.t Student) :=
  match students_json w with
  | Holds d => Some d
  | _ => None
  end.

Definition set_students (d : Dict.t Student) (w : World) : World :=
  mkWorld d (students_json w) (embed_dir w) (attendance_file w).
Definition set_students_json (f : json_file (Dict.t Student)) (w : World)
  : World :=
  mkWorld (students w) f (embed_dir w) (attendance_file w).
Definition set_students_file (d : Dict.t Student) (w : World) : World :=
  set_students_json (Holds d) w.
Definition set_embed_dir (m : gmap string vec) (w : World) : World :=
  mkWorld (students w) (students_json w) m (attendance_file w).
Definition set_attendance_file (a : gmap string (list string)) (w : World)
  : World :=
  mkWorld (students w) (students_json w) (embed_dir w) (Some a).

(** A fresh installation: no file written yet, nobody enrolled. *)
Definition fresh : World := mkWorld [] Absent ∅ None.

(** STUDENTS_FILE is there but holds no document. *)
Definition torn (w : World) : bool :=
  match students_json w with
  | Torn => true
  | _ => false
  end.

(** ** A state and exception monad for the handlers *)

Definition M (A : Type) : Type := World -> result A * World.

Definition ret {A} (a : A) : M A := fun w => (Ok a, w).
Definition raise {A} (e : exn) : M A := fun w => (Raise e, w).
Definition bind {A B} (m : M A) (k : A -> M B) : M B :=
  fun w =>
    match m w with
    | (Ok a, w') => k a w'
    | (Raise e, w') => (Raise e, w')
    end.
Definition gets {A} (f : World -> A) : M A := fun w => (Ok (f w), w).
Definition modify (f : World -> World) : M unit := fun w => (Ok tt, f w).

Notation "'let!' x ':=' m 'in' k" := (bind m (fun x => k))
  (at level 10, x name, m at level 100, k at level 200).
Notation "'run!' m 'in' k" := (bind m (fun _ => k))
  (at level 10, m at level 100, k at level 200).

(** Lines 43-47: the dictionary is read from disk when the script starts;
    [json.load] raises on a file without a document and the run ends
    there. *)
Definition startup : M unit :=
  fun w =>
    match students_json w with
    | Holds d => (Ok tt, set_students d w)
    | Absent => (Ok tt, set_students [] w)
    | Torn => (Raise JSONDecodeError, w)
    end.

(** The state a run has once the top of the script is through. *)
Definition load_students (w : World) : World := snd (startup w).

(** ** Attendance ledger (lines 59-77) *)

(** [mark_attendance(name)]; [today] stands for [date.today().isoformat()]. *)
Definition mark_attendance (today name : string) (w : World) : World :=
  let attendance : gmap string (list string) :=
    match attendance_file w with
    | None => ∅
    | Some a => a
    end in
  let attendance : gmap string (list string) :=
    match attendance !! today with
    | None => <[today := []]> attendance
    | Some _ => attendance
    end in
  let attendance : gmap string (list string) :=
    let l : list string := default [] (attendance !! today) in
    if bool_decide (name ∈ l) then attendance
    else <[today := l ++ [name]]> attendance in
  set_attendance_file attendance w.

(** [get_attendance()] *)
Definition get_attendance (w : World) : gmap string (list string) :=
  match attendance_file w with
  | None => ∅
  | Some a => a
  end.

(** The names recorded under a date key, none when the key is absent.
    The program reads the mapping as a whole; this observation of it is
    used to state what [mark_attendance] records. *)
Definition query (d : string) (w : World) : list string :=
  default [] (get_attendance w !! d).

(** ** Embedding store (lines 53-57) *)

(** [load_embedding(name)]: [np.load] raises when the file is missing. *)
Definition load_embedding (name : string) : M vec :=
  fun w =>
    match embed_dir w !! name with
    | Some emb => (Ok emb, w)
    | None => (Raise FileNotFoundError, w)
    end.

(** [save_embedding(name, emb)].  The program calls it at line 105 only,
    with a name under which line 102 has just written [temp_<name>.wav]:
    a single path component (see [enrollable]), so that the file is
    [EMBED_DIR/<name>.npy] itself and two names are two files. *)
Definition save_embedding (name : string) (emb : vec) : M unit :=
  modify (fun w => set_embed_dir (<[name := emb]> (embed_dir w)) w).

(** How a write with [open(path, 'w')] and [json.dump] can end. *)
Inductive write_outcome :=
  | Written           (* the document is in the file *)
  | RefusedAtOpen     (* [open] raises: the file is not touched *)
  | FailedAfterOpen.  (* [open] truncated the file, the dump did not finish *)

(** [save_students()] (lines 49-51), for each way the write can end. *)
Definition save_students_io (o : write_outcome) : M unit :=
  match o with
  | Written => modify (fun w => set_students_file (students w) w)
  | RefusedAtOpen => raise OSError
  | FailedAfterOpen => fun w => (Raise OSError, set_students_json Torn w)
  end.

Definition save_students : M unit := save_students_io Written.

(** ** Cosine distance ([scipy.spatial.distance.cosine]) *)

Fixpoint dot (u v : vec) : R :=
  match u, v with
  | a :: u', b :: v' => (a * b + dot u' v')%R
  | _, _ => 0%R
  end.

(** [1 - u.v / (|u| |v|)]; vectors of different lengths are rejected with a
    [ValueError] by the dot product.  For a zero vector the library divides
    by zero and the comparison with the threshold is false; here the
    quotient is [0], the similarity is [0], and the comparison is false as
    well.  The arithmetic is exact: rounding, overflow and underflow of
    the floating point computation are not modelled, so a statement about
    scores speaks of the ideal values. *)
Definition cosine (u v : vec) : result R :=
  if decide (length u = length v)
  then Ok (1 - dot u v / sqrt (dot u u * dot v v))%R
  else Raise ValueError.

Definition lift {A} (r : result A) : M A := fun w => (r, w).

(** ** Recognition (lines 139-149) *)

Inductive MatchResult :=
  | Matched (id : string) (score : R)
  | NoMatch.

Definition THRESHOLD : R := 0.75%R.

(** The [for name, data in students.items()] loop of one capture cycle, for
    the recorded embedding [rec_emb]: the first candidate whose similarity
    exceeds the threshold is marked present and the loop breaks. *)
Fixpoint recognize_loop (today : string) (rec_emb : vec)
    (items : list (string * Student)) : M MatchResult :=
  match items with
  | [] => ret NoMatch                    (* [matched] stays [False] *)
  | (name, data) :: rest =>
      let! ref_emb := load_embedding name in
      let! d := lift (cosine ref_emb rec_emb) in
      let sim := (1 - d)%R in
      if Rgt_dec sim THRESHOLD then
        run! modify (mark_attendance today name) in
        ret (Matched name sim)
      else recognize_loop today rec_emb rest
  end.

Definition recognize (today : string) (rec_emb : vec) : M MatchResult :=
  let! items := gets (fun w => Dict.items (students w)) in
  recognize_loop today rec_emb items.

(** The matcher alone: the decision of one cycle, ledger write left out. *)
Definition identify (rec_emb : vec) (w : World) : result MatchResult :=
  fst (recognize "" rec_emb w).

(** ** Enrollment (lines 97-116) *)

(** Lines 105-114: the two writes of the "Record & Enroll" handler, for the
    embedding [emb] the encoder produced; [o] is the way the metadata
    write ends.  The handler reaches these lines with a name that line 102
    has accepted. *)
Definition register_io (o : write_outcome)
    (name std div year roll_no emergency_contact : string) (emb : vec)
  : M unit :=
  run! save_embedding name emb in
  run! modify (fun w =>
         set_students
           (Dict.set name
              (mkStudent name std div year roll_no emergency_contact)
              (students w)) w) in
  save_students_io o.

Definition register : string -> string -> string -> string -> string ->
  string -> vec -> M unit := register_io Written.

(** [c in s] for one character. *)
Fixpoint has_char (c : Ascii.ascii) (s : string) : bool :=
  match s with
  | EmptyString => false
  | String a s' => if Ascii.eqb a c then true else has_char c s'
  end.

(** The first component of a path: what precedes the first ['/']. *)
Fixpoint first_component (s : string) : string :=
  match s with
  | EmptyString => EmptyString
  | String a s' =>
      if Ascii.eqb a "/"%char then EmptyString
      else String a (first_component s')
  end.

(** The longest file name the file system takes, in bytes. *)
Definition NAME_MAX : nat := 255.

(** Lines 101-102: [wavfile.write(f"temp_{name}.wav", fs, audio)] creates
    a file in the working directory.  A NUL byte is refused by [open]; a
    ['/'] makes [temp_<...>] a directory to look into, and the working
    directory has none of that name (the program makes none); a component
    longer than [NAME_MAX] is refused by the file system. *)
Definition write_temp_wav (name : string) : M unit :=
  if has_char "000"%char name then raise ValueError
  else if has_char "/"%char name then
    if Nat.ltb NAME_MAX (String.length ("temp_" +:+ first_component name))
    then raise OSError
    else raise FileNotFoundError
  else if Nat.ltb NAME_MAX (String.length ("temp_" +:+ name +:+ ".wav"))
    then raise OSError
  else ret tt.

(** The names line 102 lets through: one path component, short enough. *)
Definition enrollable (name : string) : bool :=
  negb (has_char "000"%char name)
  && negb (has_char "/"%char name)
  && Nat.leb (String.length ("temp_" +:+ name +:+ ".wav")) NAME_MAX.

(** Lines 97-116: the handler runs only for a non-empty name; the
    recording is written to the temporary file, then the two writes of
    lines 105-114 follow. *)
Definition enroll_handler
    (name std div year roll_no emergency_contact : string) (emb : vec)
  : M unit :=
  if String.eqb name "" then ret tt
  else
    run! write_temp_wav name in
    register name std div year roll_no emergency_contact emb.

(** ** Directory: lookup and deletion *)

(** [students.get(id)] *)
Definition find (id : string) (w : World) : option Student :=
  Dict.get id (students w).

(** Lines 190-194: the "Delete" button drawn for the listed record [info]. *)
Definition delete_handler (info : Student) : M unit :=
  let! present := gets (fun w => Dict.mem (name info) (students w)) in
  if present : bool then
    run! modify (fun w =>
           set_students (Dict.del (name info) (students w)) w) in
    save_students
  else ret tt.

(** [remove(id)]: pressing "Delete" on the entry listed under key [id]. *)
Definition remove (id : string) : M unit :=
  let! entry := gets (find id) in
  match entry with
  | Some info => delete_handler info
  | None => ret tt
  end.

(** ** Invariant of the directory *)

(** Every record sits under its own name. *)
Definition keyed_by_name (d : Dict.t Student) : Prop :=
  ∀ k r, Dict.get k d = Some r → name r = k.

(** ** The score of one candidate and the pure scan of the loop *)

(** Lines 141-142 for the candidate [nm]: [1 - cosine(ref_emb, rec_emb)],
    or the exception that loading or scoring raises. *)
Definition similarity (rec_emb : vec) (w : World) (nm : string) : result R :=
  match embed_dir w !! nm with
  | None => Raise FileNotFoundError
  | Some ref_emb =>
      match cosine ref_emb rec_emb with
      | Ok d => Ok (1 - d)%R
      | Raise e => Raise e
      end
  end.

(** The decision of the loop as a function of the items still to visit;
    [recognize_loop_scan] below shows it is what [recognize_loop] returns. *)
Fixpoint scan (rec_emb : vec) (w : World) (items : list (string * Student))
  : result MatchResult :=
  match items with
  | [] => Ok NoMatch
  | (nm, _) :: rest =>
      match similarity rec_emb w nm with
      | Raise e => Raise e
      | Ok s =>
          if Rgt_dec s THRESHOLD then Ok (Matched nm s)
          else scan rec_emb w rest
      end
  end.

(** A candidate that was scored and did not pass the threshold. *)
Definition below (rec_emb : vec) (w : World) (it : string * Student) : Prop :=
  ∃ s, similarity rec_emb w it.1 = Ok s ∧ (s <= THRESHOLD)%R.

(** Every listed candidate has a stored vector of the query's dimension. *)
Definition scorable (rec_emb : vec) (w : World) : Prop :=
  Forall (λ it : string * Student,
            ∃ e, embed_dir w !! it.1 = Some e ∧ length e = length rec_emb)
         (students w).

(** ** Sample states *)

Definition emb_A : vec := [1; 0]%R.
Definition info_A : Student := mkStudent "A" "5" "B" "2024" "7" "100".

(** "A" has just been enrolled on a fresh installation. *)
Definition w_enrolled : World :=
  snd (register "A" "5" "B" "2024" "7" "100" emb_A fresh).

(** "A" was marked present on one day of a fresh installation. *)
Definition w_marked : World := mark_attendance "2024-01-01" "A" fresh.

Definition info_B : Student := mkStudent "B" "5" "B" "2024" "8" "101".
Definition query_x : vec := [1; 0]%R.

(** "A" then "B" enrolled; "A" is close to [query_x], "B" is equal to it. *)
Definition w_two : World :=
  mkWorld [("A", info_A); ("B", info_B)]
          (Holds [("A", info_A); ("B", info_B)])
          (<["B" := [1; 0]%R]> (<["A" := [4; 3]%R]> ∅))
          None.

(** "A" holds a vector of another dimension than [query_x]. *)
Definition w_mismatch : World :=
  mkWorld [("A", info_A); ("B", info_B)]
          (Holds [("A", info_A); ("B", info_B)])
          (<["B" := [1; 0]%R]> (<["A" := [1; 0; 0]%R]> ∅))
          None.

(** The same store, the directory listing "B" first. *)
Definition w_mismatch_late : World :=
  mkWorld [("B", info_B); ("A", info_A)]
          (Holds [("B", info_B); ("A", info_A)])
          (<["B" := [1; 0]%R]> (<["A" := [1; 0; 0]%R]> ∅))
          None.

(** ** Presentation views (lines 153-195) *)

Section Grouping.
Context {K V : Type} `{EqDecision K}.

(** [grouped.setdefault(key, []).append(v)] on a dictionary whose keys are
    tuples: a known key gets [v] at the end of its list, a new key goes
    last with the list [[v]]. *)
Fixpoint setdefault_append (key : K) (v : V) (g : list (K * list V))
  : list (K * list V) :=
  match g with
  | [] => [(key, [v])]
  | (k', vs) :: g' =>
      if decide (key = k') then (k', vs ++ [v]) :: g'
      else (k', vs) :: setdefault_append key v g'
  end.

(** [grouped.get(key, [])] *)
Fixpoint group_get (key : K) (g : list (K * list V)) : list V :=
  match g with
  | [] => []
  | (k', vs) :: g' => if decide (key = k') then vs else group_get key g'
  end.
End Grouping.

(** Python compares tuples position by position and strings by code
    point; [String.compare] is that order on the encoded bytes. *)
Definition lex (c1 c2 : comparison) : comparison :=
  match c1 with
  | Eq => c2
  | _ => c1
  end.

Definition class_key : Type := string * string * string.
Definition day_key : Type := string * string * string * string.

Definition compare_class (a b : class_key) : comparison :=
  lex (String.compare a.1.1 b.1.1)
      (lex (String.compare a.1.2 b.1.2) (String.compare a.2 b.2)).

Definition compare_day (a b : day_key) : comparison :=
  lex (compare_class a.1 b.1) (String.compare a.2 b.2).

(** The order [sorted] uses on the items of a dictionary: by key (the keys
    of a dictionary differ, so the values are never compared). *)
Definition key_le {K V : Type} (cmp : K → K → comparison) (a b : K * V)
  : Prop :=
  cmp a.1 b.1 ≠ Gt.

#[global] Instance key_le_dec {K V : Type} (cmp : K → K → comparison)
  (a b : K * V) : Decision (key_le cmp a b).
Proof. unfold key_le. destruct (cmp a.1 b.1); [left | left | right]; naive_solver. Defined.

(** [sorted(grouped.items())] *)
Definition sorted_items {K V : Type} (cmp : K → K → comparison)
  (g : list (K * list V)) : list (K * list V) :=
  merge_sort (key_le cmp) g.

(** [(info["year"], info["std"], info["div"])] *)
Definition class_of (info : Student) : class_key :=
  (year info, std info, div info).

(** [needle in hay] on strings *)
Fixpoint contains (needle hay : string) : bool :=
  if String.prefix needle hay then true
  else match hay with
       | EmptyString => false
       | String _ hay' => contains needle hay'
       end.

Section Views.
(** [str.lower] *)
Variable lower : string → string.

(** Line 173: the dictionary comprehension of the search box. *)
Definition filtered_students (search : string) (d : Dict.t Student)
  : Dict.t Student :=
  if String.eqb search "" then d
  else List.filter
         (λ kv : string * Student,
            contains (lower search) (lower kv.1)
            || contains (lower search) (lower (roll_no kv.2)))
         (Dict.items d).

(** Lines 175-178. *)
Definition group_enrolled (fs : Dict.t Student)
  : list (class_key * list Student) :=
  fold_left (λ grouped kv, setdefault_append (class_of kv.2) kv.2 grouped)
            (Dict.items fs) [].

(** Lines 172-180: the groups the page walks through, in order; each
    record of a group gets its row, its "Edit" and its "Delete" button. *)
Definition show_enrolled (search : string) (w : World)
  : list (class_key * list Student) :=
  sorted_items compare_class
    (group_enrolled (filtered_students search (students w))).
End Views.

(** Lines 159-164. *)
Definition group_attendance (d : Dict.t Student)
    (data : list (string * list string)) : list (day_key * list Student) :=
  fold_left
    (λ grouped (entry : string * list string),
       fold_left
         (λ grouped name,
            match Dict.get name d with
            | Some info =>
                setdefault_append (class_of info, entry.1) info grouped
            | None => grouped
            end)
         entry.2 grouped)
    data [].

Inductive attendance_page :=
  | NoAttendanceYet                                   (* line 156 *)
  | Tables (groups : list (day_key * list Student)).  (* lines 166-168 *)

(** Lines 153-168.  The order in which [data.items()] yields the dates is
    the order of the keys in the file; it is taken here as the order of
    [map_to_list], the page being sorted by key afterwards. *)
Definition show_attendance (w : World) : attendance_page :=
  let data := get_attendance w in
  if decide (data = ∅) then NoAttendanceYet
  else Tables (sorted_items compare_day
                 (group_attendance (students w) (map_to_list data))).

(** ** Sessions: one run of the script per interaction *)

Inductive action :=
  | Enroll (name std div year roll_no emergency_contact : string) (emb : vec)
  | Delete (info : Student)
  | Recognize (today : string) (rec_emb : vec).

(** Streamlit runs the script from the top for every interaction: the
    directory is loaded (lines 43-47), then the handler of the pressed
    button runs.  An exception ends the run with the state as it is. *)
Definition interact (a : action) (w : World) : World :=
  match startup w with
  | (Raise _, w0) => w0
  | (Ok _, w0) =>
      match a with
      | Enroll n s dv y r c emb => snd (enroll_handler n s dv y r c emb w0)
      | Delete info => snd (delete_handler info w0)
      | Recognize today rec_emb => snd (recognize today rec_emb w0)
      end
  end.

Definition session (acts : list action) (w : World) : World :=
  fold_left (λ w a, interact a w) acts w.

(** Every listed student has an embedding file. *)
Definition all_enrolled_have_embedding (w : World) : Prop :=
  ∀ k, Dict.mem k (students w) = true → is_Some (embed_dir w !! k).

(** The dictionary in memory is what a restart would load. *)
Definition in_sync (w : World) : Prop := load_students w = w.

(** "A" enrolled and recognised once on 2024-01-01. *)
Definition w_present : World := mark_attendance "2024-01-01" "A" w_enrolled.

(** A run of recognitions: [mark_attendance] called for each matched
    (date, name) in turn. *)
Definition mark_all (marks : list (string * string)) (w : World) : World :=
  fold_left (λ w m, mark_attendance m.1 m.2 w) marks w.

(** * Properties *)

(** ** Ledger *)

Example mark_twice :
  query "2024-01-01"
    (mark_attendance "2024-01-01" "A" (mark_attendance "2024-01-01" "A" fresh))
  = ["A"].
Proof. vm_compute. reflexivity. Qed.

Section Ledger.
Implicit Types (w : World) (today name d : string).

Lemma get_attendance_set a w :
  get_attendance (set_attendance_file a w) = a.
Proof. reflexivity. Qed.

(** What one call leaves under each date key. *)
Lemma mark_attendance_lookup today name w d :
  get_attendance (mark_attendance today name w) !! d =
    if decide (d = today)
    then Some (if bool_decide (name ∈ query today w)
               then query today w
               else query today w ++ [name])
    else get_attendance w !! d.
Proof.
  unfold mark_attendance, query. rewrite get_attendance_set.
  fold (get_attendance w). set (a := get_attendance w).
  destruct (a !! today) as [l|] eqn:Hl; cbn.
  - rewrite Hl; cbn.
    case_bool_decide; case_decide; subst;
      rewrite ?lookup_insert_eq, ?lookup_insert_ne by done; done.
  - rewrite lookup_insert_eq; cbn.
    rewrite bool_decide_eq_false_2 by (apply not_elem_of_nil).
    rewrite insert_insert_eq.
    case_decide; subst;
      rewrite ?lookup_insert_eq, ?lookup_insert_ne by done; done.
Qed.

Lemma mark_attendance_query_today today name w :
  query today (mark_attendance today name w) =
    if bool_decide (name ∈ query today w)
    then query today w
    else query today w ++ [name].
Proof.
  unfold query at 1. rewrite mark_attendance_lookup.
  rewrite decide_True by done. reflexivity.
Qed.

Lemma mark_attendance_recorded today name w :
  name ∈ query today (mark_attendance today name w).
Proof.
  rewrite mark_attendance_query_today.
  case_bool_decide; [done | set_solver].
Qed.

(** Only the ledger file is written. *)
Lemma mark_attendance_frame today name w :
  students (mark_attendance today name w) = students w
  ∧ students_file (mark_attendance today name w) = students_file w
  ∧ embed_dir (mark_attendance today name w) = embed_dir w.
Proof. done. Qed.

Lemma mark_attendance_file today name w :
  attendance_file (mark_attendance today name w)
  = Some (get_attendance (mark_attendance today name w)).
Proof. reflexivity. Qed.

Lemma recorded_file_exists name d w :
  name ∈ query d w →
  attendance_file w = Some (get_attendance w)
  ∧ get_attendance w !! d = Some (query d w).
Proof.
  unfold query, get_attendance.
  destruct (attendance_file w) as [a|]; cbn.
  - destruct (a !! d); cbn; [done | by intros ?%not_elem_of_nil].
  - rewrite lookup_empty; cbn. by intros ?%not_elem_of_nil.
Qed.
End Ledger.

(** C5. [mark_attendance] is idempotent: when the name is already recorded
    under today's key the call leaves the whole state as it was, and in
    every state a second call with the same arguments changes nothing the
    first call left. *)
Theorem mark_attendance_idempotent (today name : string) (w : World) :
  (name ∈ query today w → mark_attendance today name w = w)
  ∧ mark_attendance today name (mark_attendance today name w)
    = mark_attendance today name w.
Proof.
  assert (Hnoop : ∀ w', name ∈ query today w' →
                        mark_attendance today name w' = w').
  { intros w' Hin.
    destruct (recorded_file_exists _ _ _ Hin) as [Hfile Hkey].
    assert (Hatt : get_attendance (mark_attendance today name w')
                   = get_attendance w').
    { apply map_eq; intros d. rewrite mark_attendance_lookup.
      case_decide; subst; [|done].
      by rewrite bool_decide_eq_true_2, Hkey. }
    pose proof (mark_attendance_file today name w') as Hf.
    rewrite Hatt, <- Hfile in Hf.
    destruct w'; cbn in *. unfold mark_attendance, set_attendance_file in *.
    cbn in *. by f_equal. }
  split; [apply Hnoop|].
  apply Hnoop, mark_attendance_recorded.
Qed.

Lemma mark_attendance_idempotent_witness :
  "A" ∈ query "2024-01-01" w_marked
  ∧ mark_attendance "2024-01-01" "A" w_marked = w_marked.
Proof.
  assert (H : "A" ∈ query "2024-01-01" w_marked).
  { vm_compute. constructor. }
  split; [exact H|].
  exact (proj1 (mark_attendance_idempotent "2024-01-01" "A" w_marked) H).
Defined.

(** C6. Uniqueness within a date is preserved: if no list of the ledger
    holds a name twice before the call, none does after it. *)
Theorem mark_attendance_NoDup (today name : string) (w : World)
    (Huniq : ∀ d l, get_attendance w !! d = Some l → NoDup l) :
  ∀ d l, get_attendance (mark_attendance today name w) !! d = Some l →
         NoDup l.
Proof.
  intros d l. rewrite mark_attendance_lookup.
  assert (Hq : NoDup (query today w)).
  { unfold query. destruct (get_attendance w !! today) eqn:E; cbn.
    - eauto.
    - constructor. }
  case_decide; subst; [|by apply Huniq].
  intros [= <-]. case_bool_decide as Hin; [done|].
  apply NoDup_app. split_and!; [done | | apply NoDup_singleton].
  intros x Hx ->%list_elem_of_singleton. done.
Qed.

Lemma mark_attendance_NoDup_witness :
  (∀ d l, get_attendance w_marked !! d = Some l → NoDup l)
  ∧ (∀ d l,
       get_attendance (mark_attendance "2024-01-01" "B" w_marked) !! d
       = Some l → NoDup l).
Proof.
  assert (H : ∀ d l, get_attendance w_marked !! d = Some l → NoDup l).
  { intros d l. unfold w_marked. rewrite mark_attendance_lookup.
    destruct (decide (d = "2024-01-01")) as [_|_].
    - intros [= <-]. vm_compute. repeat constructor. inversion 1.
    - vm_compute. discriminate. }
  split; [exact H|].
  exact (mark_attendance_NoDup "2024-01-01" "B" w_marked H).
Defined.

(** C7. The call only appends: the entry of every other date is what it
    was, and the names recorded for today are still there, in the same
    order, followed by at most the new name. *)
Theorem mark_attendance_append_only (today name : string) (w : World) :
  (∀ d, d ≠ today →
        get_attendance (mark_attendance today name w) !! d
        = get_attendance w !! d)
  ∧ (∀ x, x ∈ query today w → x ∈ query today (mark_attendance today name w))
  ∧ (query today w `prefix_of` query today (mark_attendance today name w)).
Proof.
  split_and!.
  - intros d Hd. rewrite mark_attendance_lookup. by rewrite decide_False.
  - intros x Hx. rewrite mark_attendance_query_today.
    case_bool_decide; [done | set_solver].
  - rewrite mark_attendance_query_today.
    case_bool_decide; [done | by apply prefix_app_r].
Qed.

Lemma mark_attendance_append_only_witness :
  "2024-01-02" ≠ "2024-01-01"
  ∧ get_attendance (mark_attendance "2024-01-01" "B" w_marked) !! "2024-01-02"
    = get_attendance w_marked !! "2024-01-02"
  ∧ "A" ∈ query "2024-01-01" w_marked
  ∧ "A" ∈ query "2024-01-01" (mark_attendance "2024-01-01" "B" w_marked).
Proof.
  assert (H1 : "2024-01-02" ≠ "2024-01-01") by discriminate.
  assert (H2 : "A" ∈ query "2024-01-01" w_marked).
  { vm_compute. constructor. }
  pose proof (mark_attendance_append_only "2024-01-01" "B" w_marked)
    as (Hother & Hkept & _).
  split; [exact H1|]. split; [exact (Hother _ H1)|].
  split; [exact H2 | exact (Hkept _ H2)].
Defined.

(** ** Dictionary lemmas *)

Module DictFacts.
Section DictFacts.
Context {V : Type}.
Implicit Types (d : Dict.t V) (k : string) (v : V).

Lemma get_set_eq k v d : Dict.get k (Dict.set k v d) = Some v.
Proof.
  induction d as [|[k' v'] d IH]; cbn.
  - by rewrite String.eqb_refl.
  - destruct (String.eqb_spec k k') as [->|Hne]; cbn.
    + by rewrite String.eqb_refl.
    + by destruct (String.eqb_spec k k').
Qed.

Lemma get_set_ne k k' v d :
  k ≠ k' → Dict.get k' (Dict.set k v d) = Dict.get k' d.
Proof.
  intros Hne. induction d as [|[k0 v0] d IH]; cbn.
  - by destruct (String.eqb_spec k' k) as [->|].
  - destruct (String.eqb_spec k k0) as [->|]; cbn.
    + by destruct (String.eqb_spec k' k0) as [->|].
    + by rewrite IH.
Qed.

Lemma get_del_eq k d : Dict.get k (Dict.del k d) = None.
Proof.
  induction d as [|[k' v'] d IH]; cbn; [done|].
  destruct (String.eqb_spec k k') as [->|Hne]; cbn; [done|].
  by destruct (String.eqb_spec k k').
Qed.

Lemma get_del_ne k k' d :
  k ≠ k' → Dict.get k' (Dict.del k d) = Dict.get k' d.
Proof.
  intros Hne. induction d as [|[k0 v0] d IH]; cbn; [done|].
  destruct (String.eqb_spec k k0) as [->|]; cbn.
  - by destruct (String.eqb_spec k' k0) as [->|].
  - by rewrite IH.
Qed.

Lemma mem_get k d : Dict.mem k d = true ↔ is_Some (Dict.get k d).
Proof.
  induction d as [|[k' v'] d IH]; cbn.
  - split; [done | by intros [? ?]].
  - destruct (String.eqb_spec k k'); [|done]. split; eauto.
Qed.
End DictFacts.
End DictFacts.

(** ** Directory and embedding store *)

Section Directory.
Implicit Types (w : World) (info : Student) (emb : vec).

Lemma register_io_unfold (o : write_outcome) n s dv y r c emb w :
  register_io o n s dv y r c emb w =
    let d := Dict.set n (mkStudent n s dv y r c) (students w) in
    let w1 := mkWorld d (students_json w) (<[n := emb]> (embed_dir w))
                (attendance_file w) in
    match o with
    | Written => (Ok tt, set_students_file d w1)
    | RefusedAtOpen => (Raise OSError, w1)
    | FailedAfterOpen => (Raise OSError, set_students_json Torn w1)
    end.
Proof. by destruct o. Qed.

Lemma delete_handler_unfold info w :
  delete_handler info w =
    if Dict.mem (name info) (students w) then
      let d := Dict.del (name info) (students w) in
      (Ok tt, mkWorld d (Holds d) (embed_dir w) (attendance_file w))
    else (Ok tt, w).
Proof.
  unfold delete_handler, bind, gets; cbn.
  by destruct (Dict.mem (name info) (students w)).
Qed.

Lemma remove_unfold id w :
  remove id w =
    match find id w with
    | Some info => delete_handler info w
    | None => (Ok tt, w)
    end.
Proof. unfold remove, bind, gets. by destruct (find id w). Qed.

Lemma keyed_by_name_set n s dv y r c (d : Dict.t Student) :
  keyed_by_name d →
  keyed_by_name (Dict.set n (mkStudent n s dv y r c) d).
Proof.
  intros Hd k rec. destruct (decide (n = k)) as [->|Hne].
  - rewrite DictFacts.get_set_eq. by intros [= <-].
  - rewrite DictFacts.get_set_ne by done. apply Hd.
Qed.

Lemma keyed_by_name_del n (d : Dict.t Student) :
  keyed_by_name d → keyed_by_name (Dict.del n d).
Proof.
  intros Hd k rec. destruct (decide (n = k)) as [->|Hne].
  - by rewrite DictFacts.get_del_eq.
  - rewrite DictFacts.get_del_ne by done. apply Hd.
Qed.

Lemma keyed_by_name_fresh : keyed_by_name (students fresh).
Proof. intros k r; cbn. done. Qed.

(** The temporary file is written for the enrollable names and no other,
    and the modelled state has no part in it. *)
Lemma write_temp_wav_unfold n w :
  write_temp_wav n w =
    (if enrollable n then Ok tt else fst (write_temp_wav n w), w)
  ∧ (enrollable n = false → ∃ e, fst (write_temp_wav n w) = Raise e).
Proof.
  unfold write_temp_wav, enrollable, raise, ret.
  destruct (has_char "000" n); cbn [negb andb fst]; [eauto|].
  destruct (has_char "/" n); cbn [negb andb fst].
  - case_match; cbn [fst]; eauto.
  - rewrite Nat.leb_antisym.
    case_match; cbn [negb fst]; [eauto|]. split; [done | discriminate].
Qed.

(** With an enrollable name typed in, the handler is the two writes; with
    another name it raises at line 102 and leaves everything as it is. *)
Lemma enroll_handler_nonempty n s dv y r c emb w :
  n ≠ "" → enrollable n = true →
  enroll_handler n s dv y r c emb w = register n s dv y r c emb w.
Proof.
  intros Hn Hok. unfold enroll_handler.
  destruct (String.eqb_spec n ""); [done|]. unfold bind.
  rewrite (proj1 (write_temp_wav_unfold n w)). by rewrite Hok.
Qed.

Lemma enroll_handler_rejected n s dv y r c emb w :
  n ≠ "" → enrollable n = false →
  ∃ e, enroll_handler n s dv y r c emb w = (Raise e, w).
Proof.
  intros Hn Hok. unfold enroll_handler.
  destruct (String.eqb_spec n ""); [done|]. unfold bind.
  destruct (write_temp_wav_unfold n w) as [Heq Hraise].
  destruct (Hraise Hok) as [e He].
  rewrite Heq, Hok, He. eauto.
Qed.

Lemma enroll_handler_empty s dv y r c emb w :
  enroll_handler "" s dv y r c emb w = (Ok tt, w).
Proof. reflexivity. Qed.
End Directory.

(** C8 (as stated it fails): a name with a ['/'] in it cannot be enrolled.
    The handler raises at line 102 before anything is saved, so the
    directory does not know the name afterwards and the embedding store
    has no vector for it. *)
Lemma enroll_rejects_path_name :
  enroll_handler "a/b" "5" "B" "2024" "7" "100" emb_A fresh
  = (Raise FileNotFoundError, fresh)
  ∧ find "a/b" fresh = None
  ∧ fst (load_embedding "a/b" fresh) = Raise FileNotFoundError.
Proof. split_and!; reflexivity. Qed.

(** C8 (amended). Round trip at enrollment, for every name the handler can
    enrol (not empty, a single path component without NUL byte, short
    enough for [temp_<name>.wav]): the handler completes, the directory
    returns the registered record under the name, also after a restart
    that reloads it from disk, and the embedding store returns the very
    vector that was saved. *)
Theorem enroll_round_trip
    (n s dv y r c : string) (emb : vec) (w : World)
    (Hname : n ≠ "") (Hfile : enrollable n = true) :
  ∃ w', enroll_handler n s dv y r c emb w = (Ok tt, w')
        ∧ find n w' = Some (mkStudent n s dv y r c)
        ∧ find n (load_students w') = Some (mkStudent n s dv y r c)
        ∧ load_embedding n w' = (Ok emb, w').
Proof.
  rewrite enroll_handler_nonempty by done.
  unfold register. rewrite register_io_unfold. cbn zeta.
  eexists; split; [reflexivity|].
  unfold find, load_students, load_embedding; cbn.
  rewrite DictFacts.get_set_eq, lookup_insert_eq. done.
Qed.

Lemma enroll_round_trip_witness :
  "A" ≠ ""
  ∧ enrollable "A" = true
  ∧ ∃ w', enroll_handler "A" "5" "B" "2024" "7" "100" emb_A fresh = (Ok tt, w')
          ∧ find "A" w' = Some info_A
          ∧ find "A" (load_students w') = Some info_A
          ∧ load_embedding "A" w' = (Ok emb_A, w').
Proof.
  assert (H1 : "A" ≠ "") by discriminate.
  assert (H2 : enrollable "A" = true) by reflexivity.
  split; [exact H1|]. split; [exact H2|].
  exact (enroll_round_trip "A" "5" "B" "2024" "7" "100" emb_A fresh H1 H2).
Defined.

(** C10. The directory is keyed by the record's own name: the invariant
    holds of the empty directory and is kept by the enrollment writes and
    by the deletion handler, in memory and in the file it saves. *)
Theorem keyed_by_name_preserved (w : World)
    (Hinv : keyed_by_name (students w)) :
  (∀ n s dv y r c emb,
      let w' := snd (register n s dv y r c emb w) in
      keyed_by_name (students w')
      ∧ students_file w' = Some (students w'))
  ∧ (∀ n s dv y r c emb,
      keyed_by_name (students (snd (enroll_handler n s dv y r c emb w))))
  ∧ (∀ info,
      let w' := snd (delete_handler info w) in
      keyed_by_name (students w')
      ∧ (Dict.mem (name info) (students w) = true →
         students_file w' = Some (students w'))).
Proof.
  split_and!.
  - intros n s dv y r c emb. unfold register.
    rewrite register_io_unfold; cbn.
    split; [by apply keyed_by_name_set | done].
  - intros n s dv y r c emb. destruct (decide (n = "")) as [->|Hn].
    + by rewrite enroll_handler_empty.
    + destruct (enrollable n) eqn:Hok.
      * rewrite enroll_handler_nonempty by done. unfold register.
        rewrite register_io_unfold; cbn. by apply keyed_by_name_set.
      * destruct (enroll_handler_rejected n s dv y r c emb w Hn Hok)
          as [e ->]. done.
  - intros info. rewrite delete_handler_unfold.
    destruct (Dict.mem (name info) (students w)); cbn.
    + split; [by apply keyed_by_name_del | done].
    + split; [done | discriminate].
Qed.

Lemma keyed_by_name_preserved_witness :
  keyed_by_name (students w_enrolled)
  ∧ keyed_by_name
      (students (snd (register "B" "5" "B" "2024" "8" "101" emb_A w_enrolled)))
  ∧ keyed_by_name (students (snd (delete_handler info_A w_enrolled))).
Proof.
  assert (H : keyed_by_name (students w_enrolled)).
  { intros k r. cbn. destruct (String.eqb_spec k "A") as [->|]; [|done].
    by intros [= <-]. }
  pose proof (keyed_by_name_preserved w_enrolled H) as (Hreg & _ & Hdel).
  split; [exact H|].
  split; [exact (proj1 (Hreg "B" "5" "B" "2024" "8" "101" emb_A))
         | exact (proj1 (Hdel info_A))].
Defined.

(** C2 (as stated it fails): after enrolling "A" and deleting it, the
    directory no longer knows "A" but the embedding store still returns
    its vector. *)
Lemma remove_leaves_embedding :
  ∃ w', remove "A" w_enrolled = (Ok tt, w')
        ∧ find "A" w' = None
        ∧ load_embedding "A" w' = (Ok emb_A, w')
        ∧ fst (load_embedding "A" w') ≠ Raise FileNotFoundError.
Proof.
  rewrite remove_unfold. unfold w_enrolled, register.
  rewrite register_io_unfold. cbn.
  eexists; split; [reflexivity|].
  unfold find, load_embedding; cbn. rewrite lookup_insert_eq. done.
Qed.

(** C2 (amended). Removing an enrolled identity deletes its directory
    metadata only: the name is gone from the directory in memory and from
    the saved file, while the embedding store is exactly what it was, so
    reading the embedding of the removed name gives what it gave before. *)
Theorem remove_deletes_metadata_only
    (id : string) (info : Student) (w : World)
    (Hinv : keyed_by_name (students w))
    (Henrolled : find id w = Some info) :
  ∃ w', remove id w = (Ok tt, w')
        ∧ find id w' = None
        ∧ find id (load_students w') = None
        ∧ embed_dir w' = embed_dir w
        ∧ fst (load_embedding id w') = fst (load_embedding id w).
Proof.
  rewrite remove_unfold, Henrolled, delete_handler_unfold.
  pose proof (Hinv _ _ Henrolled) as Hname. rewrite Hname.
  assert (Hmem : Dict.mem id (students w) = true).
  { apply DictFacts.mem_get. unfold find in Henrolled. eauto. }
  rewrite Hmem. cbn zeta. eexists; split; [reflexivity|].
  unfold find, load_students, load_embedding; cbn.
  rewrite DictFacts.get_del_eq.
  by destruct (embed_dir w !! id).
Qed.

Lemma remove_deletes_metadata_only_witness :
  keyed_by_name (students w_enrolled)
  ∧ find "A" w_enrolled = Some info_A
  ∧ ∃ w', remove "A" w_enrolled = (Ok tt, w')
          ∧ find "A" w' = None
          ∧ find "A" (load_students w') = None
          ∧ embed_dir w' = embed_dir w_enrolled
          ∧ fst (load_embedding "A" w') = fst (load_embedding "A" w_enrolled).
Proof.
  assert (H1 : keyed_by_name (students w_enrolled)).
  { intros k r. cbn. destruct (String.eqb_spec k "A") as [->|]; [|done].
    by intros [= <-]. }
  assert (H2 : find "A" w_enrolled = Some info_A) by reflexivity.
  split; [exact H1|]. split; [exact H2|].
  exact (remove_deletes_metadata_only "A" info_A w_enrolled H1 H2).
Defined.

(** C3 (as stated it fails): when the metadata write fails, whether it is
    refused on opening or breaks off after the file was truncated, the
    embedding written just before stays in the store and no metadata can
    be read back; nothing is rolled back. *)
Lemma register_partial_write :
  (∃ w', register_io FailedAfterOpen "A" "5" "B" "2024" "7" "100" emb_A fresh
         = (Raise OSError, w')
         ∧ embed_dir w' !! "A" = Some emb_A
         ∧ embed_dir w' ≠ embed_dir fresh
         ∧ students_file w' = None)
  ∧ (∃ w', register_io RefusedAtOpen "A" "5" "B" "2024" "7" "100" emb_A fresh
           = (Raise OSError, w')
           ∧ embed_dir w' !! "A" = Some emb_A
           ∧ students_file w' = None).
Proof.
  split; rewrite register_io_unfold; cbn;
    (eexists; split; [reflexivity|]); cbn.
  - split; [by rewrite lookup_insert_eq|]. split; [|done].
    intros Heq. apply (f_equal (λ m : gmap string vec, m !! "A")) in Heq.
    rewrite lookup_insert_eq, lookup_empty in Heq. done.
  - split; [by rewrite lookup_insert_eq | done].
Qed.

(** C3 (amended). Enrollment writes the embedding first and the metadata
    second and never rolls back: when the metadata write fails, in either
    way, the failure is raised to the caller and the embedding written
    before it stays in the store; when the write completes, both are
    saved. *)
Theorem register_io_no_rollback
    (n s dv y r c : string) (emb : vec) (w : World) :
  (∃ w', register_io RefusedAtOpen n s dv y r c emb w = (Raise OSError, w')
         ∧ embed_dir w' = <[n := emb]> (embed_dir w))
  ∧ (∃ w', register_io FailedAfterOpen n s dv y r c emb w = (Raise OSError, w')
           ∧ embed_dir w' = <[n := emb]> (embed_dir w))
  ∧ (∃ w', register_io Written n s dv y r c emb w = (Ok tt, w')
           ∧ embed_dir w' = <[n := emb]> (embed_dir w)
           ∧ students_file w'
             = Some (Dict.set n (mkStudent n s dv y r c) (students w))).
Proof.
  split_and!; rewrite register_io_unfold; cbn zeta;
    (eexists; split; [reflexivity|done]).
Qed.

(** ** Matcher *)

Section Matcher.
Implicit Types (w : World) (q e : vec) (nm id : string).
Implicit Types (items pre post : list (string * Student)).

Lemma recognize_loop_cons today q nm data items w :
  recognize_loop today q ((nm, data) :: items) w =
    match similarity q w nm with
    | Raise e => (Raise e, w)
    | Ok s =>
        if Rgt_dec s THRESHOLD
        then (Ok (Matched nm s), mark_attendance today nm w)
        else recognize_loop today q items w
    end.
Proof.
  cbn [recognize_loop]. unfold bind, load_embedding, lift, similarity.
  destruct (embed_dir w !! nm) as [e|]; [|done].
  destruct (cosine e q) as [d|x]; [|done].
  by destruct (Rgt_dec (1 - d) THRESHOLD).
Qed.

(** The loop returns the decision of [scan] and writes the ledger only
    for a match. *)
Lemma recognize_loop_scan today q items w :
  recognize_loop today q items w =
    (scan q w items,
     match scan q w items with
     | Ok (Matched id _) => mark_attendance today id w
     | _ => w
     end).
Proof.
  induction items as [|[nm data] items IH]; [done|].
  rewrite recognize_loop_cons. cbn [scan].
  destruct (similarity q w nm) as [s|x]; [|done].
  by destruct (Rgt_dec s THRESHOLD).
Qed.

Lemma recognize_identify today q w :
  recognize today q w =
    (identify q w,
     match identify q w with
     | Ok (Matched id _) => mark_attendance today id w
     | _ => w
     end).
Proof.
  unfold identify, recognize, bind, gets.
  by rewrite !recognize_loop_scan.
Qed.

Lemma identify_scan q w : identify q w = scan q w (students w).
Proof.
  unfold identify, recognize, bind, gets.
  by rewrite recognize_loop_scan.
Qed.

Lemma scan_below_app q w pre items :
  Forall (below q w) pre → scan q w (pre ++ items) = scan q w items.
Proof.
  induction 1 as [|[nm data] pre [s [Hs Hle]] _ IH]; [done|].
  cbn in *. rewrite Hs.
  destruct (Rgt_dec s THRESHOLD); [lra | done].
Qed.

Lemma scan_NoMatch q w items :
  scan q w items = Ok NoMatch ↔ Forall (below q w) items.
Proof.
  induction items as [|[nm data] items IH]; cbn.
  - split; [constructor | done].
  - destruct (similarity q w nm) as [s|x] eqn:Hs.
    + destruct (Rgt_dec s THRESHOLD) as [Hgt|Hle].
      * split; [done|]. intros [[s' [Hs' Hle']] _]%Forall_cons.
        cbn in Hs'. rewrite Hs in Hs'. injection Hs' as <-. lra.
      * rewrite IH. split.
        -- intros HF. constructor; [|done]. exists s. split; [done | lra].
        -- by intros [_ HF]%Forall_cons.
    + split; [done|]. intros [[s' [Hs' _]] _]%Forall_cons.
      cbn in Hs'. congruence.
Qed.

(** The first candidate that is not [below] decides the pass. *)
Lemma scan_first q w pre nm data post :
  Forall (below q w) pre →
  scan q w (pre ++ (nm, data) :: post) =
    match similarity q w nm with
    | Raise e => Raise e
    | Ok s => if Rgt_dec s THRESHOLD then Ok (Matched nm s)
              else scan q w post
    end.
Proof. intros Hpre. by rewrite scan_below_app. Qed.

Lemma scan_Matched q w items id s :
  scan q w items = Ok (Matched id s) ↔
  ∃ pre data post,
    items = pre ++ (id, data) :: post
    ∧ Forall (below q w) pre
    ∧ similarity q w id = Ok s ∧ (s > THRESHOLD)%R.
Proof.
  split.
  - induction items as [|[nm data] items IH]; cbn; [done|].
    destruct (similarity q w nm) as [s'|x] eqn:Hs; [|done].
    destruct (Rgt_dec s' THRESHOLD) as [Hgt|Hle].
    + intros [= <- <-]. by exists [], data, items.
    + intros (pre & data' & post & -> & Hpre & Hid & Hgt)%IH.
      exists ((nm, data) :: pre), data', post.
      split_and!; [done | | done | done].
      constructor; [|done]. exists s'. split; [done | lra].
  - intros (pre & data & post & -> & Hpre & Hid & Hgt).
    rewrite scan_first, Hid by done.
    by destruct (Rgt_dec s THRESHOLD).
Qed.

Lemma scan_Raise q w items x :
  scan q w items = Raise x ↔
  ∃ pre id data post,
    items = pre ++ (id, data) :: post
    ∧ Forall (below q w) pre
    ∧ similarity q w id = Raise x.
Proof.
  split.
  - induction items as [|[nm data] items IH]; cbn; [done|].
    destruct (similarity q w nm) as [s'|x'] eqn:Hs.
    + destruct (Rgt_dec s' THRESHOLD) as [Hgt|Hle]; [done|].
      intros (pre & id & data' & post & -> & Hpre & Hid)%IH.
      exists ((nm, data) :: pre), id, data', post.
      split_and!; [done | | done].
      constructor; [|done]. exists s'. split; [done | lra].
    + intros [= <-]. by exists [], nm, data, items.
  - intros (pre & id & data & post & -> & Hpre & Hid).
    by rewrite scan_first, Hid.
Qed.

Lemma similarity_ValueError q w nm :
  similarity q w nm = Raise ValueError ↔
  ∃ e, embed_dir w !! nm = Some e ∧ length e ≠ length q.
Proof.
  unfold similarity, cosine.
  destruct (embed_dir w !! nm) as [e|].
  - case_decide as Hlen.
    + split; [done|]. intros (e' & [= <-] & Hne). done.
    + split; [eauto | done].
  - split; [done|]. by intros (e' & ? & _).
Qed.

Lemma similarity_scorable q w nm e :
  embed_dir w !! nm = Some e → length e = length q →
  ∃ s, similarity q w nm = Ok s.
Proof.
  intros He Hlen. unfold similarity, cosine. rewrite He.
  rewrite decide_True by done. eauto.
Qed.

Lemma scan_scorable q w items :
  Forall (λ it : string * Student,
            ∃ e, embed_dir w !! it.1 = Some e ∧ length e = length q)
         items →
  ∃ r, scan q w items = Ok r.
Proof.
  induction 1 as [|[nm data] items (e & He & Hlen) _ IH]; cbn; [eauto|].
  cbn in He. destruct (similarity_scorable q w nm e He Hlen) as [s ->].
  destruct (Rgt_dec s THRESHOLD); eauto.
Qed.
End Matcher.

(** Scores of the sample states. *)

Lemma similarity_equal_vectors :
  (1 - (1 - dot [1; 0] [1; 0] / sqrt (dot [1; 0] [1; 0] * dot [1; 0] [1; 0]))
   = 1)%R.
Proof.
  cbn [dot].
  replace ((1 * 1 + (0 * 0 + 0)) * (1 * 1 + (0 * 0 + 0)))%R with 1%R by lra.
  rewrite sqrt_1. lra.
Qed.

Lemma similarity_close_vectors :
  (1 - (1 - dot [4; 3] [1; 0] / sqrt (dot [4; 3] [4; 3] * dot [1; 0] [1; 0]))
   = 4 / 5)%R.
Proof.
  cbn [dot].
  replace ((4 * 4 + (3 * 3 + 0)) * (1 * 1 + (0 * 0 + 0)))%R
    with (5 * 5)%R by lra.
  rewrite sqrt_square by lra. lra.
Qed.

Lemma similarity_w_two_A : similarity query_x w_two "A" = Ok (4 / 5)%R.
Proof.
  unfold similarity, w_two, query_x, cosine; cbn [embed_dir].
  rewrite lookup_insert_ne, lookup_insert_eq by done.
  rewrite decide_True by done. f_equal. apply similarity_close_vectors.
Qed.

Lemma similarity_w_two_B : similarity query_x w_two "B" = Ok 1%R.
Proof.
  unfold similarity, w_two, query_x, cosine; cbn [embed_dir].
  rewrite lookup_insert_eq.
  rewrite decide_True by done. f_equal. apply similarity_equal_vectors.
Qed.

Lemma similarity_w_mismatch_A :
  similarity query_x w_mismatch "A" = Raise ValueError.
Proof.
  apply similarity_ValueError. exists [1; 0; 0]%R. split; [|done].
  unfold w_mismatch; cbn [embed_dir].
  by rewrite lookup_insert_ne, lookup_insert_eq.
Qed.

Lemma similarity_w_mismatch_B : similarity query_x w_mismatch "B" = Ok 1%R.
Proof.
  unfold similarity, w_mismatch, query_x, cosine; cbn [embed_dir].
  rewrite lookup_insert_eq.
  rewrite decide_True by done. f_equal. apply similarity_equal_vectors.
Qed.

(** C1 (as stated it fails): with "A" scoring 0.8 and "B" scoring 1.0, the
    loop stops at "A"; the candidate of maximum score is "B". *)
Lemma identify_not_maximum :
  identify query_x w_two = Ok (Matched "A" (4 / 5)%R)
  ∧ similarity query_x w_two "B" = Ok 1%R
  ∧ (4 / 5 < 1)%R
  ∧ identify query_x w_two ≠ Ok (Matched "B" 1%R).
Proof.
  assert (H : identify query_x w_two = Ok (Matched "A" (4 / 5)%R)).
  { rewrite identify_scan. unfold w_two; cbn [students scan].
    fold w_two. rewrite similarity_w_two_A.
    destruct (Rgt_dec (4 / 5) THRESHOLD) as [_|Hn]; [done|].
    exfalso. apply Hn. unfold THRESHOLD. lra. }
  split; [exact H|]. split; [apply similarity_w_two_B|]. split; [lra|].
  rewrite H. intros Heq. inversion Heq.
Qed.

(** C1 (amended). [identify] visits the candidates in directory order,
    scores each with [1 - cosine], and returns [Matched] for the first one
    whose score is strictly above 0.75, the candidates before it having
    been scored at or below the threshold and those after it not being
    looked at; it returns [NoMatch] exactly when every candidate was scored
    at or below the threshold, and always for the empty directory.  When
    every listed candidate has a stored vector of the query's dimension the
    pass returns a result, and that result is a match exactly when some
    score (hence the maximum) is above 0.75. *)
Theorem identify_first_above_threshold (q : vec) (w : World) :
  (students w = [] → identify q w = Ok NoMatch)
  ∧ (identify q w = Ok NoMatch ↔ Forall (below q w) (students w))
  ∧ (∀ id s,
       identify q w = Ok (Matched id s) ↔
       ∃ pre data post,
         students w = pre ++ (id, data) :: post
         ∧ Forall (below q w) pre
         ∧ similarity q w id = Ok s ∧ (s > THRESHOLD)%R)
  ∧ (scorable q w →
       (∃ r, identify q w = Ok r)
       ∧ ((∃ id s, identify q w = Ok (Matched id s)) ↔
          ∃ it s, it ∈ students w
                  ∧ similarity q w it.1 = Ok s ∧ (s > THRESHOLD)%R)).
Proof.
  rewrite identify_scan. split_and!.
  - by intros ->.
  - apply scan_NoMatch.
  - intros id s. apply scan_Matched.
  - intros Hsc. destruct (scan_scorable q w _ Hsc) as [r Hr].
    split; [eauto|]. split.
    + intros (id & s & (pre & data & post & Heq & _ & Hs & Hgt)%scan_Matched).
      exists (id, data), s. split_and!; [|done|done].
      rewrite Heq. set_solver.
    + intros (it & s & Hin & Hs & Hgt).
      destruct r as [id s'|]; [eauto|].
      apply scan_NoMatch in Hr. rewrite Forall_forall in Hr.
      destruct (Hr it Hin) as (s' & Hs' & Hle).
      rewrite Hs in Hs'. injection Hs' as <-. lra.
Qed.

Lemma identify_first_above_threshold_witness :
  scorable query_x w_two
  ∧ ∃ r, identify query_x w_two = Ok r.
Proof.
  assert (Hsc : scorable query_x w_two).
  { unfold scorable, w_two, query_x; cbn [students embed_dir].
    repeat constructor; cbn [fst].
    - exists [4; 3]%R. by rewrite lookup_insert_ne, lookup_insert_eq.
    - exists [1; 0]%R. by rewrite lookup_insert_eq. }
  split; [exact Hsc|].
  exact (proj1 (proj2 (proj2 (proj2
           (identify_first_above_threshold query_x w_two))) Hsc)).
Defined.

(** C4 (as stated it fails): "A" holds a vector of another dimension and
    is listed first, so the pass ends in scipy's [ValueError] and "B",
    which equals the query, is never scored; with the same store and "B"
    listed first the mismatch is not reported at all. *)
Lemma identify_mismatch_aborts :
  identify query_x w_mismatch = Raise ValueError
  ∧ similarity query_x w_mismatch "B" = Ok 1%R
  ∧ (1 > THRESHOLD)%R
  ∧ embed_dir w_mismatch_late = embed_dir w_mismatch
  ∧ identify query_x w_mismatch_late = Ok (Matched "B" 1%R).
Proof.
  split_and!.
  - rewrite identify_scan. unfold w_mismatch; cbn [students scan].
    fold w_mismatch. by rewrite similarity_w_mismatch_A.
  - apply similarity_w_mismatch_B.
  - unfold THRESHOLD. lra.
  - reflexivity.
  - rewrite identify_scan. unfold w_mismatch_late; cbn [students scan].
    change (similarity query_x _ "B") with (similarity query_x w_mismatch "B").
    rewrite similarity_w_mismatch_B.
    destruct (Rgt_dec 1 THRESHOLD) as [_|Hn]; [done|].
    exfalso. apply Hn. unfold THRESHOLD. lra.
Qed.

(** C4 (amended). A stored vector whose dimension differs from the query's
    makes the pass end in [ValueError] as soon as the loop reaches that
    candidate, every candidate before it having scored at or below the
    threshold; no result is returned and the candidates after it are not
    scored.  This is the only way the pass raises [ValueError].  When an
    earlier candidate scores above the threshold, that candidate is
    returned and the mismatch behind it is never met. *)
Theorem identify_dimension_mismatch (q : vec) (w : World) :
  (∀ pre id data post e,
      students w = pre ++ (id, data) :: post →
      Forall (below q w) pre →
      embed_dir w !! id = Some e → length e ≠ length q →
      identify q w = Raise ValueError)
  ∧ (identify q w = Raise ValueError →
     ∃ pre id data post e,
       students w = pre ++ (id, data) :: post
       ∧ Forall (below q w) pre
       ∧ embed_dir w !! id = Some e ∧ length e ≠ length q)
  ∧ (∀ pre id data post s,
      students w = pre ++ (id, data) :: post →
      Forall (below q w) pre →
      similarity q w id = Ok s → (s > THRESHOLD)%R →
      identify q w = Ok (Matched id s)).
Proof.
  rewrite identify_scan. split_and!.
  - intros pre id data post e Heq Hpre He Hlen.
    apply scan_Raise. exists pre, id, data, post. split_and!; [done..|].
    apply similarity_ValueError. eauto.
  - intros (pre & id & data & post & Heq & Hpre & Hid)%scan_Raise.
    apply similarity_ValueError in Hid as (e & He & Hlen).
    by exists pre, id, data, post, e.
  - intros pre id data post s Heq Hpre Hs Hgt.
    apply scan_Matched. by exists pre, data, post.
Qed.

Lemma identify_dimension_mismatch_witness :
  students w_mismatch = [] ++ ("A", info_A) :: [("B", info_B)]
  ∧ Forall (below query_x w_mismatch) []
  ∧ embed_dir w_mismatch !! "A" = Some [1; 0; 0]%R
  ∧ length [1; 0; 0]%R ≠ length query_x
  ∧ identify query_x w_mismatch = Raise ValueError.
Proof.
  assert (H1 : students w_mismatch = [] ++ ("A", info_A) :: [("B", info_B)])
    by reflexivity.
  assert (H2 : Forall (below query_x w_mismatch) []) by constructor.
  assert (H3 : embed_dir w_mismatch !! "A" = Some [1; 0; 0]%R).
  { unfold w_mismatch; cbn [embed_dir].
    by rewrite lookup_insert_ne, lookup_insert_eq. }
  assert (H4 : length [1; 0; 0]%R ≠ length query_x) by (cbn; lia).
  split_and!; [done..|].
  exact (proj1 (identify_dimension_mismatch query_x w_mismatch)
           [] "A" info_A [("B", info_B)] [1; 0; 0]%R H1 H2 H3 H4).
Defined.

(** * Further properties of the handlers *)

(** ** Dictionary: order of the keys *)

Section DictOrder.
Context {V : Type}.
Implicit Types (d : Dict.t V) (k : string) (v : V).

Lemma set_absent k v d : Dict.mem k d = false → Dict.set k v d = d ++ [(k, v)].
Proof.
  induction d as [|[k' v'] d IH]; cbn; [done|].
  destruct (String.eqb_spec k k'); [done|]. intros H. by rewrite IH.
Qed.

Lemma set_keys k v d :
  (Dict.set k v d).*1 = if Dict.mem k d then d.*1 else d.*1 ++ [k].
Proof.
  induction d as [|[k' v'] d IH]; cbn; [done|].
  destruct (String.eqb_spec k k') as [->|]; cbn; [done|].
  rewrite IH. by destruct (Dict.mem k d).
Qed.

Lemma del_filter k d :
  Dict.del k d = List.filter (λ kv, negb (String.eqb k kv.1)) d.
Proof.
  induction d as [|[k' v'] d IH]; cbn; [done|].
  destruct (String.eqb_spec k k'); cbn; by rewrite IH.
Qed.

Lemma mem_elem_of k v d : (k, v) ∈ d → Dict.mem k d = true.
Proof.
  induction d as [|[k' v'] d IH]; cbn; [by intros ?%elem_of_nil|].
  intros [[= -> ->]|Hin]%elem_of_cons.
  - by rewrite String.eqb_refl.
  - destruct (String.eqb k k'); [done | by apply IH].
Qed.

Lemma mem_keys k d : Dict.mem k d = true ↔ k ∈ d.*1.
Proof.
  induction d as [|[k' v'] d IH]; cbn.
  - split; [done | by intros ?%elem_of_nil].
  - rewrite elem_of_cons, <- IH.
    destruct (String.eqb_spec k k'); naive_solver.
Qed.

Lemma get_elem_of k v d : Dict.get k d = Some v → (k, v) ∈ d.
Proof.
  induction d as [|[k' v'] d IH]; cbn; [done|].
  destruct (String.eqb_spec k k') as [->|].
  - intros [= ->]. left.
  - intros H. right. by apply IH.
Qed.
End DictOrder.

(** X1. Enrolling one name leaves every other name as it was: its record
    in the directory and the ledger, and, for a name that is itself a
    file name the handler can enrol, its embedding file and so its score
    against any query. *)
Theorem enroll_frame (n s dv y r c : string) (emb : vec) (w : World)
    (k : string) (Hk : k ≠ n) :
  let w' := snd (enroll_handler n s dv y r c emb w) in
  find k w' = find k w
  ∧ attendance_file w' = attendance_file w
  ∧ (enrollable k = true →
     embed_dir w' !! k = embed_dir w !! k
     ∧ ∀ q, similarity q w' k = similarity q w k).
Proof.
  destruct (decide (n = "")) as [->|Hn]; [by rewrite enroll_handler_empty|].
  destruct (enrollable n) eqn:Hok.
  - rewrite enroll_handler_nonempty by done.
    unfold register. rewrite register_io_unfold. cbn.
    unfold find, similarity; cbn.
    rewrite DictFacts.get_set_ne, lookup_insert_ne by done. done.
  - destruct (enroll_handler_rejected n s dv y r c emb w Hn Hok) as [e ->].
    done.
Qed.

Lemma enroll_frame_witness :
  "A" ≠ "B"
  ∧ enrollable "A" = true
  ∧ find "A" (snd (enroll_handler "B" "5" "B" "2024" "8" "101" [0; 1]%R
                     w_enrolled))
    = Some info_A
  ∧ embed_dir (snd (enroll_handler "B" "5" "B" "2024" "8" "101" [0; 1]%R
                      w_enrolled)) !! "A"
    = Some emb_A.
Proof.
  assert (H1 : "A" ≠ "B") by discriminate.
  assert (H2 : enrollable "A" = true) by reflexivity.
  pose proof (enroll_frame "B" "5" "B" "2024" "8" "101" [0; 1]%R
                w_enrolled "A" H1) as (Hfind & _ & Hemb).
  destruct (Hemb H2) as [Hfile _].
  split; [exact H1|]. split; [exact H2|]. split.
  - rewrite Hfind. reflexivity.
  - rewrite Hfile. unfold w_enrolled, register.
    rewrite register_io_unfold. cbn. apply lookup_insert_eq.
Defined.

(** X2. Enrolling a name that is already listed keeps the order in which
    the recognition loop tries the candidates; a new name is tried last. *)
Theorem register_candidate_order
    (n s dv y r c : string) (emb : vec) (w : World) :
  (students (snd (register n s dv y r c emb w))).*1 =
    if Dict.mem n (students w) then (students w).*1
    else (students w).*1 ++ [n].
Proof.
  unfold register. rewrite register_io_unfold. cbn. apply set_keys.
Qed.

(** X3. The "Delete" button never fails and removes the entries under the
    record's name and nothing else: the other students stay, in their
    order, every embedding file stays, and the ledger keeps the attendance
    already recorded, that of the removed name included.  When the name is
    listed the shortened directory is saved; when it is not, nothing at
    all changes, the saved file included. *)
Theorem delete_handler_frame (info : Student) (w : World) :
  let w' := snd (delete_handler info w) in
  students w'
  = List.filter (λ kv, negb (String.eqb (name info) kv.1)) (students w)
  ∧ embed_dir w' = embed_dir w
  ∧ attendance_file w' = attendance_file w
  ∧ fst (delete_handler info w) = Ok tt
  ∧ (Dict.mem (name info) (students w) = true →
     students_file w' = Some (students w'))
  ∧ (Dict.mem (name info) (students w) = false → w' = w).
Proof.
  rewrite delete_handler_unfold.
  destruct (Dict.mem (name info) (students w)) eqn:Hmem; cbn.
  - rewrite del_filter. by split_and!.
  - split_and!; try done. symmetry. apply forallb_filter_id.
    apply forallb_forall. intros [k v] Hin%list_elem_of_In; cbn.
    destruct (String.eqb_spec (name info) k) as [<-|]; [|done].
    apply mem_elem_of in Hin. congruence.
Qed.

Lemma delete_handler_frame_witness :
  Dict.mem (name info_A) (students w_two) = true
  ∧ students (snd (delete_handler info_A w_two)) = [("B", info_B)]
  ∧ students_file (snd (delete_handler info_A w_two))
    = Some [("B", info_B)]
  ∧ Dict.mem (name info_B) (students w_enrolled) = false
  ∧ snd (delete_handler info_B w_enrolled) = w_enrolled.
Proof.
  assert (H1 : Dict.mem (name info_A) (students w_two) = true)
    by reflexivity.
  assert (H2 : Dict.mem (name info_B) (students w_enrolled) = false)
    by reflexivity.
  pose proof (delete_handler_frame info_A w_two)
    as (Hst & _ & _ & _ & Hsaved & _).
  pose proof (delete_handler_frame info_B w_enrolled)
    as (_ & _ & _ & _ & _ & Hsame).
  split; [exact H1|]. split; [rewrite Hst; reflexivity|].
  split; [rewrite (Hsaved H1), Hst; reflexivity|].
  split; [exact H2 | exact (Hsame H2)].
Defined.

(** ** Scores *)

Lemma dot_self_nonneg (u : vec) : (0 <= dot u u)%R.
Proof. induction u as [|a u IH]; cbn; [lra | nra]. Qed.

Lemma dot_zero_r (q : vec) : dot q q = 0%R → ∀ e, dot e q = 0%R.
Proof.
  induction q as [|a q IH]; intros Hz e.
  - by destruct e.
  - destruct e as [|b e]; [done|]. cbn in *.
    pose proof (dot_self_nonneg q) as Hq.
    assert (a = 0)%R as -> by nra.
    rewrite IH by nra. lra.
Qed.

Lemma similarity_self (e : vec) (w : World) (nm : string) :
  embed_dir w !! nm = Some e → (0 < dot e e)%R →
  similarity e w nm = Ok 1%R.
Proof.
  intros He Hpos. unfold similarity, cosine. rewrite He.
  rewrite decide_True by done. f_equal.
  rewrite sqrt_square by lra. field. lra.
Qed.

Lemma similarity_zero_query (q : vec) (w : World) (nm : string) (s : R) :
  dot q q = 0%R → similarity q w nm = Ok s → s = 0%R.
Proof.
  intros Hz. unfold similarity, cosine.
  destruct (embed_dir w !! nm) as [e|]; [|done].
  case_decide; [|done]. intros [= <-].
  rewrite (dot_zero_r q Hz e). lra.
Qed.

Lemma threshold_below_one : (1 > THRESHOLD)%R.
Proof. unfold THRESHOLD. lra. Qed.

Lemma threshold_positive : (0 < THRESHOLD)%R.
Proof. unfold THRESHOLD. lra. Qed.

(** ** The pass as a function of the directory and the store *)

Section Scan.
Implicit Types (w : World) (q e : vec) (nm id : string).
Implicit Types (items pre post : list (string * Student)).

Lemma similarity_ext q w w' nm :
  embed_dir w' !! nm = embed_dir w !! nm →
  similarity q w' nm = similarity q w nm.
Proof. unfold similarity. by intros ->. Qed.

Lemma scan_ext q w w' items :
  (∀ k, k ∈ items.*1 → embed_dir w' !! k = embed_dir w !! k) →
  scan q w' items = scan q w items.
Proof.
  induction items as [|[nm data] items IH]; cbn; [done|]. intros H.
  rewrite (similarity_ext q w w' nm) by (apply H; left).
  rewrite IH; [done|]. intros k Hk. apply H. by right.
Qed.

Lemma scan_app q w items post :
  scan q w (items ++ post) =
    match scan q w items with
    | Ok NoMatch => scan q w post
    | r => r
    end.
Proof.
  induction items as [|[nm data] items IH]; cbn; [done|].
  destruct (similarity q w nm) as [s|x]; [|done].
  by destruct (Rgt_dec s THRESHOLD).
Qed.

Lemma identify_ext q w w' :
  students w' = students w → embed_dir w' = embed_dir w →
  identify q w' = identify q w.
Proof.
  intros Hs He. rewrite !identify_scan, Hs.
  apply scan_ext. intros k _. by rewrite He.
Qed.

Lemma identify_Matched_listed q w id s :
  identify q w = Ok (Matched id s) →
  Dict.mem id (students w) = true
  ∧ similarity q w id = Ok s ∧ (s > THRESHOLD)%R.
Proof.
  rewrite identify_scan.
  intros (pre & data & post & Heq & _ & Hs & Hgt)%scan_Matched.
  split; [|done]. apply (mem_elem_of id data). rewrite Heq. set_solver.
Qed.
End Scan.

Lemma mark_attendance_noop (today name : string) (w : World) :
  name ∈ query today w → mark_attendance today name w = w.
Proof.
  intros Hin. destruct (recorded_file_exists _ _ _ Hin) as [Hfile Hkey].
  assert (Hatt : get_attendance (mark_attendance today name w)
                 = get_attendance w).
  { apply map_eq; intros d. rewrite mark_attendance_lookup.
    case_decide; subst; [|done].
    by rewrite bool_decide_eq_true_2, Hkey. }
  pose proof (mark_attendance_file today name w) as Hf.
  rewrite Hatt, <- Hfile in Hf.
  destruct w; cbn in *. unfold mark_attendance, set_attendance_file in *.
  cbn in *. by f_equal.
Qed.

(** X4. Once a student is deleted, no query is recognised as that student
    any more, although the embedding file is still in the store. *)
Theorem deleted_never_recognised
    (id : string) (info : Student) (w : World)
    (Hinv : keyed_by_name (students w))
    (Henrolled : find id w = Some info) :
  let w' := snd (remove id w) in
  embed_dir w' !! id = embed_dir w !! id
  ∧ ∀ q s, identify q w' ≠ Ok (Matched id s).
Proof.
  rewrite remove_unfold, Henrolled, delete_handler_unfold.
  rewrite (Hinv _ _ Henrolled).
  assert (Hmem : Dict.mem id (students w) = true).
  { apply DictFacts.mem_get. unfold find in Henrolled. eauto. }
  rewrite Hmem. cbn. split; [reflexivity|].
  intros q s [Hlisted _]%identify_Matched_listed. cbn in Hlisted.
  apply DictFacts.mem_get in Hlisted as [v Hv].
  by rewrite DictFacts.get_del_eq in Hv.
Qed.

Lemma deleted_never_recognised_witness :
  keyed_by_name (students w_enrolled)
  ∧ find "A" w_enrolled = Some info_A
  ∧ identify emb_A (snd (remove "A" w_enrolled)) ≠ Ok (Matched "A" 1%R).
Proof.
  assert (H1 : keyed_by_name (students w_enrolled)).
  { intros k r. cbn. destruct (String.eqb_spec k "A") as [->|]; [|done].
    by intros [= <-]. }
  assert (H2 : find "A" w_enrolled = Some info_A) by reflexivity.
  split; [exact H1|]. split; [exact H2|].
  exact (proj2 (deleted_never_recognised "A" info_A w_enrolled H1 H2)
           emb_A 1%R).
Defined.

(** X5. A voice that has just been enrolled is never answered with "no
    match" when its own embedding is the query, for an embedding of
    ordinary size (squared norm between 1/4 and 4; the encoder emits unit
    vectors): the new entry passes the threshold.  When every listed
    candidate can be scored the pass returns a match above the threshold
    (the new student, or one listed earlier that also passes), and for the
    first student of an empty directory it returns that student. *)
Theorem enrolled_voice_is_recognised
    (n s dv y r c : string) (emb : vec) (w : World)
    (Hname : n ≠ "") (Hfile : enrollable n = true)
    (Hnorm : (1 / 4 <= dot emb emb <= 4)%R) :
  let w' := snd (enroll_handler n s dv y r c emb w) in
  identify emb w' ≠ Ok NoMatch
  ∧ (scorable emb w' →
     ∃ id sc, identify emb w' = Ok (Matched id sc) ∧ (sc > THRESHOLD)%R)
  ∧ (students w = [] →
     ∃ sc, identify emb w' = Ok (Matched n sc) ∧ (sc > THRESHOLD)%R).
Proof.
  set (rec := mkStudent n s dv y r c).
  assert (Hw : snd (enroll_handler n s dv y r c emb w)
               = mkWorld (Dict.set n rec (students w))
                   (Holds (Dict.set n rec (students w)))
                   (<[n:=emb]> (embed_dir w)) (attendance_file w)).
  { rewrite enroll_handler_nonempty by done.
    unfold register. by rewrite register_io_unfold. }
  rewrite Hw. clear Hw. intros w'.
  assert (Hsim : similarity emb w' n = Ok 1%R).
  { apply similarity_self; [apply lookup_insert_eq | lra]. }
  assert (Hno : identify emb w' ≠ Ok NoMatch).
  { rewrite identify_scan. intros Hall%scan_NoMatch.
    rewrite Forall_forall in Hall.
    destruct (Hall (n, rec)) as (s' & Hs' & Hle).
    - apply get_elem_of. apply DictFacts.get_set_eq.
    - cbn in Hs'. rewrite Hsim in Hs'. injection Hs' as <-.
      pose proof threshold_below_one. lra. }
  split; [exact Hno|]. split.
  - intros Hsc. unfold scorable in Hsc.
    destruct (scan_scorable emb w' _ Hsc) as [res Hres].
    rewrite <- identify_scan in Hres.
    destruct res as [id sc|]; [|done].
    exists id, sc. split; [done|].
    by apply identify_Matched_listed in Hres as (_ & _ & ?).
  - intros Hempty. exists 1%R. split; [|apply threshold_below_one].
    rewrite identify_scan.
    assert (Hst : students w' = [(n, rec)]).
    { unfold w'; cbn [students]. by rewrite Hempty. }
    rewrite Hst; cbn [scan].
    rewrite Hsim.
    destruct (Rgt_dec 1 THRESHOLD) as [_|Hn]; [done|].
    destruct Hn. apply threshold_below_one.
Qed.

Lemma enrolled_voice_is_recognised_witness :
  "A" ≠ ""
  ∧ enrollable "A" = true
  ∧ (1 / 4 <= dot emb_A emb_A <= 4)%R
  ∧ ∃ sc, identify emb_A
            (snd (enroll_handler "A" "5" "B" "2024" "7" "100" emb_A fresh))
          = Ok (Matched "A" sc) ∧ (sc > THRESHOLD)%R.
Proof.
  assert (H1 : "A" ≠ "") by discriminate.
  assert (H2 : enrollable "A" = true) by reflexivity.
  assert (H3 : (1 / 4 <= dot emb_A emb_A <= 4)%R) by (cbn; lra).
  split; [exact H1|]. split; [exact H2|]. split; [exact H3|].
  exact (proj2 (proj2
           (enrolled_voice_is_recognised "A" "5" "B" "2024" "7" "100"
              emb_A fresh H1 H2 H3)) eq_refl).
Defined.

(** X6. A query embedding that is all zeros is never recognised as
    anybody; when every listed candidate can be scored the answer is "no
    match". *)
Theorem zero_query_never_matches (q : vec) (w : World)
    (Hzero : dot q q = 0%R) :
  (∀ id s, identify q w ≠ Ok (Matched id s))
  ∧ (scorable q w → identify q w = Ok NoMatch).
Proof.
  assert (Hno : ∀ id s, identify q w ≠ Ok (Matched id s)).
  { intros id s (_ & Hs & Hgt)%identify_Matched_listed.
    apply (similarity_zero_query q w id s Hzero) in Hs. subst s.
    pose proof threshold_positive. lra. }
  split; [exact Hno|].
  intros Hsc. destruct (scan_scorable q w _ Hsc) as [res Hres].
  rewrite <- identify_scan in Hres. destruct res as [id s|]; [|done].
  by destruct (Hno id s).
Qed.

Lemma zero_query_never_matches_witness :
  dot [0; 0]%R [0; 0]%R = 0%R
  ∧ identify [0; 0]%R w_two ≠ Ok (Matched "B" 1%R).
Proof.
  assert (H : dot [0; 0]%R [0; 0]%R = 0%R) by (cbn; lra).
  split; [exact H|].
  exact (proj1 (zero_query_never_matches [0; 0]%R w_two H) "B" 1%R).
Defined.

(** X7. Enrolling a name that was not listed does not change the outcome
    of a query that already had one: a match or an exception found among
    the earlier candidates stays; only where the answer was "no match" the
    new candidate is scored and decides. *)
Theorem identify_after_new_enrollment
    (n s dv y r c : string) (emb q : vec) (w : World)
    (Hnew : Dict.mem n (students w) = false) :
  identify q (snd (register n s dv y r c emb w)) =
    match identify q w with
    | Ok NoMatch =>
        match cosine emb q with
        | Ok d => if Rgt_dec (1 - d) THRESHOLD
                  then Ok (Matched n (1 - d)%R) else Ok NoMatch
        | Raise e => Raise e
        end
    | res => res
    end.
Proof.
  set (rec := mkStudent n s dv y r c).
  assert (Hw : snd (register n s dv y r c emb w)
               = mkWorld (students w ++ [(n, rec)])
                   (Holds (students w ++ [(n, rec)]))
                   (<[n:=emb]> (embed_dir w)) (attendance_file w)).
  { unfold register. rewrite register_io_unfold. cbn.
    by rewrite set_absent. }
  rewrite Hw. clear Hw. set (w' := mkWorld _ _ _ _).
  rewrite !identify_scan. unfold w' at 2; cbn [students].
  rewrite scan_app.
  assert (Hext : scan q w' (students w) = scan q w (students w)).
  { apply scan_ext. intros k Hk. unfold w'; cbn [embed_dir].
    apply lookup_insert_ne. intros <-.
    apply mem_keys in Hk. congruence. }
  rewrite Hext.
  destruct (scan q w (students w)) as [[id s'|]|x]; [done | | done].
  cbn [scan]. unfold similarity, w'; cbn [embed_dir].
  rewrite lookup_insert_eq.
  destruct (cosine emb q) as [d|x]; [|done].
  by destruct (Rgt_dec (1 - d) THRESHOLD).
Qed.

Lemma identify_after_new_enrollment_witness :
  Dict.mem "B" (students w_enrolled) = false
  ∧ identify emb_A (snd (register "B" "5" "B" "2024" "8" "101" emb_A
                          w_enrolled))
    = Ok (Matched "A" 1%R).
Proof.
  assert (H : Dict.mem "B" (students w_enrolled) = false) by reflexivity.
  split; [exact H|].
  rewrite (identify_after_new_enrollment "B" "5" "B" "2024" "8" "101"
             emb_A emb_A w_enrolled H).
  assert (Hpos : (0 < dot emb_A emb_A)%R) by (cbn; lra).
  assert (HA : identify emb_A w_enrolled = Ok (Matched "A" 1%R)).
  { rewrite identify_scan. cbn [w_enrolled]. unfold w_enrolled, register.
    rewrite register_io_unfold. cbn [snd students Dict.set fresh scan].
    cbn. unfold similarity; cbn. rewrite lookup_insert_eq.
    unfold cosine. rewrite decide_True by done.
    replace (1 - (1 - dot emb_A emb_A / sqrt (dot emb_A emb_A * dot emb_A emb_A)))%R
      with 1%R.
    - destruct (Rgt_dec 1 THRESHOLD) as [_|Hn]; [done|].
      destruct Hn. apply threshold_below_one.
    - rewrite sqrt_square by lra. field. lra. }
  by rewrite HA.
Defined.

(** X8. One recognition cycle writes nothing but the ledger, and that only
    for a match, whose name is then recorded under today's date; running
    the cycle again on the same day with the same query gives the same
    answer and changes nothing more. *)
Theorem recognize_effect (today : string) (q : vec) (w : World) :
  let res := fst (recognize today q w) in
  let w' := snd (recognize today q w) in
  students w' = students w
  ∧ students_file w' = students_file w
  ∧ embed_dir w' = embed_dir w
  ∧ match res with
    | Ok (Matched id _) =>
        w' = mark_attendance today id w ∧ id ∈ query today w'
    | _ => w' = w
    end
  ∧ recognize today q w' = (res, w').
Proof.
  cbn zeta. rewrite recognize_identify. cbn [fst snd].
  destruct (identify q w) as [[id s|]|x] eqn:Hid.
  - split_and!; try done.
    + apply mark_attendance_recorded.
    + rewrite recognize_identify.
      rewrite (identify_ext q w (mark_attendance today id w)) by done.
      rewrite Hid. f_equal. apply mark_attendance_noop.
      apply mark_attendance_recorded.
  - split_and!; try done. by rewrite recognize_identify, Hid.
  - split_and!; try done. by rewrite recognize_identify, Hid.
Qed.

(** ** Whole sessions *)

Section Sessions.
Implicit Types (w : World) (a : action) (acts : list action).

Lemma load_students_disk w :
  students_file (load_students w) = students_file w
  ∧ embed_dir (load_students w) = embed_dir w
  ∧ attendance_file (load_students w) = attendance_file w.
Proof.
  unfold load_students, startup, students_file.
  destruct (students_json w) eqn:E; cbn; by rewrite E.
Qed.

Lemma load_students_in_sync w : in_sync (load_students w).
Proof.
  unfold in_sync, load_students, startup.
  destruct (students_json w) eqn:E; cbn; by rewrite E.
Qed.

Lemma in_sync_iff w :
  in_sync w ↔
  match students_json w with
  | Holds d => students w = d
  | Absent => students w = []
  | Torn => True
  end.
Proof.
  unfold in_sync, load_students, startup.
  destruct w as [st js ed af]; cbn. destruct js; cbn; [| |done].
  all: split; [by intros [= <-] | by intros ->].
Qed.

Lemma load_students_torn w : torn w = true → load_students w = w.
Proof.
  unfold torn, load_students, startup. by destruct (students_json w).
Qed.

Lemma in_sync_fresh : in_sync fresh.
Proof. reflexivity. Qed.

Lemma session_cons a acts w :
  session (a :: acts) w = session acts (interact a w).
Proof. reflexivity. Qed.

(** What one interaction does to each part of the state. *)
Lemma interact_unfold a w :
  let w0 := load_students w in
  interact a w =
    if torn w then w0
    else
      match a with
      | Enroll n s dv y r c emb =>
          if String.eqb n "" then w0
          else if enrollable n then
            let d := Dict.set n (mkStudent n s dv y r c) (students w0) in
            mkWorld d (Holds d) (<[n := emb]> (embed_dir w0))
              (attendance_file w0)
          else w0
      | Delete info =>
          if Dict.mem (name info) (students w0) then
            let d := Dict.del (name info) (students w0) in
            mkWorld d (Holds d) (embed_dir w0) (attendance_file w0)
          else w0
      | Recognize today q =>
          match identify q w0 with
          | Ok (Matched id _) => mark_attendance today id w0
          | _ => w0
          end
      end.
Proof.
  cbn zeta. unfold interact, load_students, torn, startup.
  destruct (students_json w) eqn:E; cbn [snd]; [| |reflexivity].
  all: destruct a as [n s dv y r c emb|info|today q].
  all: try (rewrite delete_handler_unfold; by destruct (Dict.mem _ _)).
  all: try by rewrite recognize_identify.
  all: destruct (String.eqb n "") eqn:Hn;
         [by apply String.eqb_eq in Hn; subst n|].
  all: apply String.eqb_neq in Hn.
  all: destruct (enrollable n) eqn:Hok.
  all: try (rewrite enroll_handler_nonempty by done;
            unfold register; by rewrite register_io_unfold).
  all: match goal with
       | |- context [enroll_handler ?a1 ?a2 ?a3 ?a4 ?a5 ?a6 ?a7 ?x] =>
           destruct (enroll_handler_rejected a1 a2 a3 a4 a5 a6 a7 x Hn Hok)
             as [e ->]
       end; done.
Qed.

Lemma interact_in_sync a w : in_sync (interact a w).
Proof.
  rewrite interact_unfold; cbn zeta.
  pose proof (load_students_in_sync w) as Hs. set (w0 := load_students w) in *.
  destruct (torn w); [done|].
  destruct a as [n s dv y r c emb|info|today q].
  - destruct (String.eqb n ""); [done|]. by destruct (enrollable n).
  - by destruct (Dict.mem (name info) (students w0)).
  - destruct (identify q w0) as [[id s|]|x]; [|done..].
    apply in_sync_iff. by apply in_sync_iff in Hs.
Qed.

Lemma interact_embeddings_kept a w k :
  is_Some (embed_dir w !! k) → is_Some (embed_dir (interact a w) !! k).
Proof.
  rewrite interact_unfold; cbn zeta.
  destruct (load_students_disk w) as (_ & He & _).
  destruct (torn w); [by rewrite He|].
  destruct a as [n s dv y r c emb|info|today q].
  - destruct (String.eqb n ""); cbn; [by rewrite He|].
    destruct (enrollable n); cbn; rewrite He; [|done].
    intros H. rewrite lookup_insert_is_Some. destruct (decide (n = k)); eauto.
  - destruct (Dict.mem _ _); cbn; by rewrite He.
  - destruct (identify q _) as [[id s|]|x]; cbn; by rewrite He.
Qed.

Lemma interact_query_prefix a w d :
  query d w `prefix_of` query d (interact a w).
Proof.
  rewrite interact_unfold; cbn zeta.
  destruct (load_students_disk w) as (_ & _ & Ha).
  assert (Hq : query d (load_students w) = query d w).
  { unfold query, get_attendance. by rewrite Ha. }
  destruct (torn w); [by rewrite Hq|].
  destruct a as [n s dv y r c emb|info|today q].
  - destruct (String.eqb n ""); [by rewrite Hq|].
    destruct (enrollable n); [|by rewrite Hq].
    unfold query, get_attendance; cbn. by rewrite Ha.
  - destruct (Dict.mem _ _); [|by rewrite Hq].
    unfold query, get_attendance; cbn. by rewrite Ha.
  - destruct (identify q _) as [[id s|]|x]; [|by rewrite Hq..].
    rewrite <- Hq. unfold query at 2. rewrite mark_attendance_lookup.
    case_decide as Hd; [subst d|done]. cbn.
    case_bool_decide; [done | by apply prefix_app_r].
Qed.

Lemma interact_enrolled_have_embedding a w :
  all_enrolled_have_embedding (load_students w) →
  all_enrolled_have_embedding (interact a w).
Proof.
  rewrite interact_unfold; cbn zeta. set (w0 := load_students w).
  intros Hall. destruct (torn w); [done|].
  destruct a as [n s dv y r c emb|info|today q].
  - destruct (String.eqb n ""); [done|].
    destruct (enrollable n); [|done]. intros k; cbn.
    rewrite lookup_insert_is_Some. intros Hk.
    destruct (decide (n = k)) as [|Hne]; [by left|]. right. split; [done|].
    apply Hall. apply DictFacts.mem_get. apply DictFacts.mem_get in Hk.
    by rewrite DictFacts.get_set_ne in Hk.
  - destruct (Dict.mem (name info) (students w0)); [|done]. intros k; cbn.
    intros Hk. apply Hall. apply DictFacts.mem_get.
    apply DictFacts.mem_get in Hk.
    destruct (decide (name info = k)) as [<-|Hne].
    + rewrite DictFacts.get_del_eq in Hk. by destruct Hk.
    + by rewrite DictFacts.get_del_ne in Hk.
  - by destruct (identify q w0) as [[id s|]|x].
Qed.

Lemma identify_no_missing_file q w :
  all_enrolled_have_embedding w → identify q w ≠ Raise FileNotFoundError.
Proof.
  intros Hall. rewrite identify_scan.
  intros (pre & id & data & post & Heq & _ & Hid)%scan_Raise.
  destruct (Hall id) as [e He].
  - apply (mem_elem_of id data). rewrite Heq. set_solver.
  - unfold similarity, cosine in Hid. rewrite He in Hid.
    by case_decide.
Qed.
End Sessions.



(** X10. No interaction ever removes an embedding file: a name that has an
    embedding keeps one through any session (re-enrolment may replace the
    vector). *)
Theorem session_embeddings_kept (acts : list action) (w : World) (k : string) :
  is_Some (embed_dir w !! k) → is_Some (embed_dir (session acts w) !! k).
Proof.
  revert w. induction acts as [|a acts IH]; intros w Hk; [done|].
  rewrite session_cons. by apply IH, interact_embeddings_kept.
Qed.

Lemma session_embeddings_kept_witness :
  is_Some (embed_dir w_enrolled !! "A")
  ∧ is_Some (embed_dir (session [Delete info_A] w_enrolled) !! "A").
Proof.
  assert (H : is_Some (embed_dir w_enrolled !! "A")).
  { exists emb_A. unfold w_enrolled, register.
    rewrite register_io_unfold. cbn. apply lookup_insert_eq. }
  split; [exact H|].
  exact (session_embeddings_kept [Delete info_A] w_enrolled "A" H).
Defined.

(** X11. Through any session the ledger only grows at the end of its
    lists: what was recorded for a date stays recorded, in the same order;
    enrolling and deleting students never touch it. *)
Theorem session_ledger_append_only
    (acts : list action) (w : World) (d : string) :
  query d w `prefix_of` query d (session acts w).
Proof.
  revert w. induction acts as [|a acts IH]; intros w; [done|].
  rewrite session_cons. etrans; [apply interact_query_prefix | apply IH].
Qed.

(** X12. In a state where every listed student has an embedding file, as
    in every state reached from a fresh installation, this stays so
    through any session, and the recognition pass never fails on a
    missing file. *)
Theorem session_enrolled_have_embedding (acts : list action) (w : World)
    (Hsync : in_sync w) (Hall : all_enrolled_have_embedding w) :
  all_enrolled_have_embedding (session acts w)
  ∧ ∀ q, identify q (session acts w) ≠ Raise FileNotFoundError.
Proof.
  assert (H : all_enrolled_have_embedding (session acts w)).
  { revert w Hsync Hall.
    induction acts as [|a acts IH]; intros w Hsync Hall; [done|].
    rewrite session_cons. apply IH; [apply interact_in_sync|].
    apply interact_enrolled_have_embedding. by rewrite Hsync. }
  split; [exact H|]. intros q. by apply identify_no_missing_file.
Qed.

Lemma session_enrolled_have_embedding_witness :
  in_sync fresh
  ∧ all_enrolled_have_embedding fresh
  ∧ identify emb_A
      (session [Enroll "A" "5" "B" "2024" "7" "100" emb_A;
                Delete info_A;
                Enroll "B" "5" "B" "2024" "8" "101" emb_A] fresh)
    ≠ Raise FileNotFoundError.
Proof.
  assert (H : all_enrolled_have_embedding fresh) by (intros k; discriminate).
  split; [exact in_sync_fresh|]. split; [exact H|].
  exact (proj2 (session_enrolled_have_embedding _ fresh in_sync_fresh H)
           emb_A).
Defined.

(** ** Grouping *)

Section GroupingFacts.
Context {K V : Type} `{EqDecision K}.
Implicit Types (g : list (K * list V)) (k c : K) (v : V).

Lemma group_get_setdefault_append c k v g :
  group_get c (setdefault_append k v g) =
    if decide (c = k) then group_get c g ++ [v] else group_get c g.
Proof.
  induction g as [|[k0 vs] g IH]; cbn.
  - by destruct (decide (c = k)).
  - destruct (decide (k = k0)) as [->|Hne]; cbn.
    + destruct (decide (c = k0)); [done|]. done.
    + rewrite IH. destruct (decide (c = k0)) as [->|]; [|done].
      by rewrite decide_False by done.
Qed.

Lemma setdefault_append_keys k v g :
  (setdefault_append k v g).*1 =
    if decide (k ∈ g.*1) then g.*1 else g.*1 ++ [k].
Proof.
  induction g as [|[k0 vs] g IH]; cbn.
  - rewrite decide_False; [done | by intros ?%elem_of_nil].
  - destruct (decide (k = k0)) as [->|Hne]; cbn.
    + rewrite decide_True; [done | left].
    + rewrite IH. destruct (decide (k ∈ g.*1)) as [Hin|Hnin].
      * rewrite decide_True; [done | by right].
      * rewrite decide_False; [done|].
        by intros [?|?]%elem_of_cons.
Qed.

Lemma setdefault_append_NoDup k v g :
  NoDup g.*1 → NoDup (setdefault_append k v g).*1.
Proof.
  intros Hnd. rewrite setdefault_append_keys.
  case_decide as Hin; [done|].
  apply NoDup_app. split_and!; [done | | apply NoDup_singleton].
  by intros x Hx ->%list_elem_of_singleton.
Qed.

Lemma setdefault_append_nonempty k v g :
  Forall (λ kg, kg.2 ≠ []) g → Forall (λ kg, kg.2 ≠ []) (setdefault_append k v g).
Proof.
  induction 1 as [|[k0 vs] g Hvs Hg IH]; cbn.
  - by repeat constructor.
  - destruct (decide (k = k0)); constructor; cbn in *; try done.
    by destruct vs.
Qed.

Lemma group_get_elem_of c vs g :
  NoDup g.*1 → (c, vs) ∈ g → group_get c g = vs.
Proof.
  induction g as [|[k0 vs0] g IH]; cbn; [by intros _ ?%elem_of_nil|].
  intros [Hnin Hnd]%NoDup_cons [[= -> ->]|Hin]%elem_of_cons.
  - by rewrite decide_True.
  - rewrite decide_False; [by apply IH|].
    intros ->. apply Hnin. apply list_elem_of_fmap. by exists (k0, vs).
Qed.

Lemma group_get_absent c g : c ∉ g.*1 → group_get c g = [].
Proof.
  induction g as [|[k0 vs0] g IH]; cbn; [done|].
  intros Hnin. rewrite decide_False; [apply IH|]; set_solver.
Qed.

Lemma group_get_Permutation c g g' :
  NoDup g.*1 → g ≡ₚ g' → group_get c g' = group_get c g.
Proof.
  intros Hnd Hp.
  assert (Hnd' : NoDup g'.*1) by (by rewrite <- Hp).
  destruct (decide (c ∈ g.*1)) as [Hin|Hnin].
  - apply list_elem_of_fmap in Hin as [[c' vs] [-> Hin]]; cbn.
    rewrite (group_get_elem_of c' vs g) by done.
    apply group_get_elem_of; [done | by rewrite <- Hp].
  - rewrite (group_get_absent c g) by done.
    apply group_get_absent. by rewrite <- Hp.
Qed.

Lemma group_get_nonempty_elem_of c g :
  group_get c g ≠ [] → (c, group_get c g) ∈ g.
Proof.
  induction g as [|[k0 vs0] g IH]; cbn; [done|].
  destruct (decide (c = k0)) as [->|]; [left | right; by apply IH].
Qed.

(** The loop that fills [grouped]: the item [x] is filed under its key, or
    skipped when it has none. *)
Context {X : Type} (kv : X → option (K * V)).

Local Abbreviation file :=
  (λ g x, match kv x with
          | Some p => setdefault_append p.1 p.2 g
          | None => g
          end).

Local Abbreviation pick c :=
  (λ x, match kv x with
        | Some p => if decide (p.1 = c) then Some p.2 else None
        | None => None
        end).

Lemma fold_group_get (xs : list X) g c :
  group_get c (fold_left file xs g) = group_get c g ++ omap (pick c) xs.
Proof.
  revert g. induction xs as [|x xs IH]; intros g; cbn.
  - by rewrite app_nil_r.
  - rewrite IH. destruct (kv x) as [[k v]|]; cbn; [|done].
    rewrite group_get_setdefault_append.
    destruct (decide (c = k)) as [->|Hne].
    + rewrite decide_True by done. by rewrite <- app_assoc.
    + by rewrite decide_False by done.
Qed.

Lemma fold_group_NoDup (xs : list X) g :
  NoDup g.*1 → NoDup (fold_left file xs g).*1.
Proof.
  revert g. induction xs as [|x xs IH]; intros g Hnd; cbn; [done|].
  apply IH. destruct (kv x); [by apply setdefault_append_NoDup | done].
Qed.

Lemma fold_group_nonempty (xs : list X) g :
  Forall (λ kg, kg.2 ≠ []) g → Forall (λ kg, kg.2 ≠ []) (fold_left file xs g).
Proof.
  revert g. induction xs as [|x xs IH]; intros g Hne; cbn; [done|].
  apply IH. destruct (kv x); [by apply setdefault_append_nonempty | done].
Qed.
End GroupingFacts.

(** ** The order of the pages *)

Lemma lex_antisym (c1 c1' c2 c2' : comparison) :
  c1 = CompOpp c1' → c2 = CompOpp c2' → lex c1 c2 = CompOpp (lex c1' c2').
Proof. intros -> ->. by destruct c1'. Qed.

Lemma compare_class_antisym (a b : class_key) :
  compare_class a b = CompOpp (compare_class b a).
Proof.
  unfold compare_class.
  repeat apply lex_antisym; apply String.compare_antisym.
Qed.

Lemma compare_day_antisym (a b : day_key) :
  compare_day a b = CompOpp (compare_day b a).
Proof.
  unfold compare_day.
  apply lex_antisym; [apply compare_class_antisym | apply String.compare_antisym].
Qed.

Lemma key_le_total {K V : Type} (cmp : K → K → comparison) :
  (∀ a b, cmp a b = CompOpp (cmp b a)) → Total (@key_le K V cmp).
Proof.
  intros Hanti a b. unfold key_le. rewrite (Hanti b.1 a.1).
  destruct (cmp a.1 b.1); cbn; [left | left | right]; done.
Qed.

Section SortedItems.
Context {K V : Type} `{EqDecision K} (cmp : K → K → comparison).
Hypothesis cmp_antisym : ∀ a b, cmp a b = CompOpp (cmp b a).

Lemma sorted_items_Sorted (g : list (K * list V)) :
  Sorted (key_le cmp) (sorted_items cmp g).
Proof.
  unfold sorted_items.
  apply (@Sorted_merge_sort _ (key_le cmp) _ (key_le_total cmp cmp_antisym)).
Qed.

Lemma sorted_items_Permutation (g : list (K * list V)) :
  sorted_items cmp g ≡ₚ g.
Proof. apply merge_sort_Permutation. Qed.

Lemma sorted_items_group_get (g : list (K * list V)) c :
  NoDup g.*1 → group_get c (sorted_items cmp g) = group_get c g.
Proof.
  intros Hnd. apply group_get_Permutation; [done|].
  symmetry. apply sorted_items_Permutation.
Qed.
End SortedItems.

(** ** Substrings *)

Lemma append_nil_l (s : string) : String.append "" s = s.
Proof. reflexivity. Qed.

Lemma append_cons (b : Ascii.ascii) (s t : string) :
  String.append (String b s) t = String b (String.append s t).
Proof. reflexivity. Qed.

Lemma prefix_spec (n h : string) :
  String.prefix n h = true ↔ ∃ post, h = String.append n post.
Proof.
  revert h. induction n as [|a n IH]; intros h; cbn.
  - setoid_rewrite append_nil_l. destruct h; cbn; split; eauto.
  - setoid_rewrite append_cons. destruct h as [|b h]; cbn.
    + split; [done | by intros [post ?]].
    + destruct (Ascii.ascii_dec a b) as [->|Hne].
      * rewrite IH. split; intros [post Hp]; exists post; congruence.
      * split; [done | intros [post [= ? ?]]; done].
Qed.

Lemma contains_spec (n h : string) :
  contains n h = true ↔
  ∃ pre post, h = String.append pre (String.append n post).
Proof.
  induction h as [|b h IH]; cbn [contains].
  - destruct (String.prefix n "") eqn:Hp.
    + apply prefix_spec in Hp as [post Hp]. split; [|done].
      intros _. by exists "", post.
    + split; [done|]. intros (pre & post & Heq).
      destruct pre; [|by rewrite append_cons in Heq].
      rewrite append_nil_l in Heq.
      assert (String.prefix n "" = true) by (apply prefix_spec; eauto).
      congruence.
  - destruct (String.prefix n (String b h)) eqn:Hp.
    + apply prefix_spec in Hp as [post Hp]. split; [|done].
      intros _. by exists "", post.
    + rewrite IH. split.
      * intros (pre & post & ->). by exists (String b pre), post.
      * intros (pre & post & Heq). destruct pre as [|b' pre].
        -- rewrite append_nil_l in Heq.
           assert (String.prefix n (String b h) = true)
             by (apply prefix_spec; eauto).
           congruence.
        -- rewrite append_cons in Heq. injection Heq as -> ->. eauto.
Qed.

Lemma contains_refl (s : string) : contains s s = true.
Proof.
  apply contains_spec. exists "", "". rewrite append_nil_l.
  induction s as [|a s IH]; [done|].
  rewrite append_cons. by rewrite <- IH.
Qed.

(** ** The page of enrolled students *)

Section EnrolledPage.
Variable lower : string → string.
Implicit Types (w : World) (d : Dict.t Student) (info : Student).

Lemma filtered_students_elem_of search d k info :
  (k, info) ∈ filtered_students lower search d ↔
  (k, info) ∈ d
  ∧ (search = ""
     ∨ contains (lower search) (lower k) = true
     ∨ contains (lower search) (lower (roll_no info)) = true).
Proof.
  unfold filtered_students, Dict.items.
  destruct (String.eqb_spec search "") as [->|Hne]; [naive_solver|].
  rewrite list_elem_of_In, filter_In, <- list_elem_of_In; cbn.
  rewrite orb_true_iff. naive_solver.
Qed.

Lemma omap_class (fs : Dict.t Student) (c : class_key) :
  omap (λ kv : string * Student,
          if decide (class_of kv.2 = c) then Some kv.2 else None) fs
  = filter (λ info, class_of info = c) fs.*2.
Proof.
  induction fs as [|[k info] fs IH]; [done|].
  rewrite fmap_cons, filter_cons. cbn [omap list_omap snd].
  rewrite <- IH. by destruct (decide (class_of info = c)).
Qed.

Lemma group_enrolled_get (fs : Dict.t Student) (c : class_key) :
  group_get c (group_enrolled fs)
  = filter (λ info, class_of info = c) fs.*2.
Proof.
  unfold group_enrolled, Dict.items.
  rewrite (fold_group_get
             (λ kv : string * Student, Some (class_of kv.2, kv.2)) fs [] c).
  cbn [group_get app]. apply omap_class.
Qed.

Lemma group_enrolled_NoDup (fs : Dict.t Student) :
  NoDup (group_enrolled fs).*1.
Proof.
  unfold group_enrolled, Dict.items.
  apply (fold_group_NoDup
           (λ kv : string * Student, Some (class_of kv.2, kv.2)) fs []).
  constructor.
Qed.

Lemma group_enrolled_nonempty (fs : Dict.t Student) :
  Forall (λ kg, kg.2 ≠ []) (group_enrolled fs).
Proof.
  unfold group_enrolled, Dict.items.
  apply (fold_group_nonempty
           (λ kv : string * Student, Some (class_of kv.2, kv.2)) fs []).
  constructor.
Qed.

Lemma show_enrolled_get search w c :
  group_get c (show_enrolled lower search w)
  = filter (λ info, class_of info = c)
      (filtered_students lower search (students w)).*2.
Proof.
  unfold show_enrolled.
  rewrite sorted_items_group_get by apply group_enrolled_NoDup.
  apply group_enrolled_get.
Qed.

Lemma show_enrolled_elem_of search w c info :
  info ∈ group_get c (show_enrolled lower search w) ↔
  class_of info = c
  ∧ ∃ k, (k, info) ∈ filtered_students lower search (students w).
Proof.
  rewrite show_enrolled_get, list_elem_of_filter, list_elem_of_fmap.
  split.
  - intros [Hc [[k i] [-> Hin]]]. eauto.
  - intros [Hc [k Hin]]. split; [done|]. by exists (k, info).
Qed.
End EnrolledPage.

(** X13. The page of enrolled students shows the groups in ascending order
    of (year, standard, division), each class once and never an empty
    group; the group of a class holds exactly the students of that class
    that pass the search box, in the order of the directory. *)
Theorem show_enrolled_groups
    (lower : string → string) (search : string) (w : World) :
  let page := show_enrolled lower search w in
  Sorted (key_le compare_class) page
  ∧ NoDup page.*1
  ∧ Forall (λ kg, kg.2 ≠ []) page
  ∧ ∀ c, group_get c page
         = filter (λ info, class_of info = c)
             (filtered_students lower search (students w)).*2.
Proof.
  cbn zeta. unfold show_enrolled.
  set (g := group_enrolled _).
  pose proof (sorted_items_Permutation compare_class g) as Hp.
  split_and!.
  - apply sorted_items_Sorted, compare_class_antisym.
  - rewrite Hp. apply group_enrolled_NoDup.
  - rewrite Hp. apply group_enrolled_nonempty.
  - intros c. apply show_enrolled_get.
Qed.

(** X14. What the search box lists.  With an empty box every enrolled
    student is on the page; with a text typed in, a student is on the page
    exactly when the lowered text occurs inside the lowered name or the
    lowered roll number; so typing a student's full name, or full roll
    number, always lists that student. *)
Theorem search_lists_matching
    (lower : string → string) (search : string) (w : World)
    (info : Student) :
  (search = "" →
     (info ∈ group_get (class_of info) (show_enrolled lower search w)
      ↔ ∃ k, (k, info) ∈ students w))
  ∧ (search ≠ "" →
     (info ∈ group_get (class_of info) (show_enrolled lower search w)
      ↔ ∃ k, (k, info) ∈ students w
             ∧ ((∃ pre post, lower k = String.append pre
                               (String.append (lower search) post))
                ∨ (∃ pre post, lower (roll_no info) = String.append pre
                               (String.append (lower search) post)))))
  ∧ (∀ k, (k, info) ∈ students w →
       info ∈ group_get (class_of info) (show_enrolled lower k w)
       ∧ info ∈ group_get (class_of info)
                  (show_enrolled lower (roll_no info) w)).
Proof.
  split_and!.
  - intros ->. rewrite show_enrolled_elem_of.
    setoid_rewrite filtered_students_elem_of. naive_solver.
  - intros Hne. rewrite show_enrolled_elem_of.
    setoid_rewrite filtered_students_elem_of.
    setoid_rewrite contains_spec. naive_solver.
  - intros k Hin. rewrite !show_enrolled_elem_of.
    setoid_rewrite filtered_students_elem_of.
    split; (split; [done|]); exists k; (split; [done|]).
    + right; left. apply contains_refl.
    + right; right. apply contains_refl.
Qed.

Lemma search_lists_matching_witness :
  "a" ≠ ""
  ∧ (info_A ∈ group_get (class_of info_A)
                (show_enrolled (λ s, if String.eqb s "A" then "a" else s)
                   "a" w_enrolled)).
Proof.
  assert (H : "a" ≠ "") by discriminate.
  split; [exact H|].
  apply (proj1 (proj2 (search_lists_matching
                         (λ s, if String.eqb s "A" then "a" else s)
                         "a" w_enrolled info_A)) H).
  exists "A". split; [left|]. left. by exists "", "".
Defined.

Lemma get_elem_of_NoDup {V : Type} (k : string) (v : V) (d : Dict.t V) :
  NoDup d.*1 → (k, v) ∈ d → Dict.get k d = Some v.
Proof.
  induction d as [|[k' v'] d IH]; cbn; [by intros _ ?%elem_of_nil|].
  intros [Hnin Hnd]%NoDup_cons [[= -> ->]|Hin]%elem_of_cons.
  - by rewrite String.eqb_refl.
  - destruct (String.eqb_spec k k') as [->|]; [|by apply IH].
    destruct Hnin. apply list_elem_of_fmap. by exists (k', v).
Qed.

Lemma elem_of_del {V : Type} (k k' : string) (v : V) (d : Dict.t V) :
  (k', v) ∈ Dict.del k d ↔ k' ≠ k ∧ (k', v) ∈ d.
Proof.
  rewrite del_filter, list_elem_of_In, filter_In, <- list_elem_of_In; cbn.
  rewrite negb_true_iff.
  destruct (String.eqb_spec k k'); naive_solver.
Qed.

(** X15. Every "Delete" button on the page of enrolled students works.
    In a directory with one entry per name, each under its own name, the
    record behind a button is the directory's entry for its name; pressing
    the button removes it from the directory and from the page, whatever
    is typed in the search box, and every other student stays on the
    page. *)
Theorem delete_button_removes
    (lower : string → string) (search : string) (c : class_key)
    (info : Student) (w : World)
    (Hkeys : NoDup (students w).*1)
    (Hinv : keyed_by_name (students w))
    (Hshown : info ∈ group_get c (show_enrolled lower search w)) :
  let w' := snd (delete_handler info w) in
  find (name info) w = Some info
  ∧ find (name info) w' = None
  ∧ ∀ search' c',
      (info ∉ group_get c' (show_enrolled lower search' w'))
      ∧ ∀ other, other ≠ info →
          other ∈ group_get c' (show_enrolled lower search' w) →
          other ∈ group_get c' (show_enrolled lower search' w').
Proof.
  apply show_enrolled_elem_of in Hshown as [_ [k Hin]].
  apply filtered_students_elem_of in Hin as [Hin _].
  pose proof (get_elem_of_NoDup k info _ Hkeys Hin) as Hget.
  pose proof (Hinv _ _ Hget) as Hname. subst k.
  assert (Hmem : Dict.mem (name info) (students w) = true).
  { apply DictFacts.mem_get. eauto. }
  rewrite delete_handler_unfold, Hmem. cbn zeta. cbn [snd].
  set (w' := mkWorld _ _ _ _).
  assert (Hst : students w' = Dict.del (name info) (students w)) by done.
  split; [exact Hget|]. split.
  { unfold find. rewrite Hst. apply DictFacts.get_del_eq. }
  intros search' c'. split.
  - rewrite show_enrolled_elem_of. intros [_ [k Hk]].
    apply filtered_students_elem_of in Hk as [Hk _].
    rewrite Hst in Hk. apply elem_of_del in Hk as [Hne Hk].
    apply (get_elem_of_NoDup k info _ Hkeys) in Hk.
    apply Hinv in Hk. congruence.
  - intros other Hother.
    rewrite !show_enrolled_elem_of. intros [Hc [k Hk]].
    split; [done|]. exists k.
    apply filtered_students_elem_of in Hk as [Hk Hmatch].
    apply filtered_students_elem_of. split; [|done].
    rewrite Hst. apply elem_of_del. split; [|done].
    intros ->. apply (get_elem_of_NoDup _ other _ Hkeys) in Hk.
    congruence.
Qed.

Lemma delete_button_removes_witness :
  NoDup (students w_two).*1
  ∧ keyed_by_name (students w_two)
  ∧ info_A ∈ group_get (class_of info_A) (show_enrolled (λ s, s) "" w_two)
  ∧ find "A" (snd (delete_handler info_A w_two)) = None.
Proof.
  assert (H1 : NoDup (students w_two).*1).
  { cbn. repeat constructor; [|by intros ?%elem_of_nil].
    by intros [=]%list_elem_of_singleton. }
  assert (H2 : keyed_by_name (students w_two)).
  { intros k r; cbn.
    destruct (String.eqb_spec k "A") as [->|_]; [by intros [= <-]|].
    destruct (String.eqb_spec k "B") as [->|_]; [by intros [= <-]|done]. }
  assert (H3 : info_A ∈ group_get (class_of info_A)
                          (show_enrolled (λ s, s) "" w_two)).
  { apply show_enrolled_elem_of. split; [done|]. exists "A".
    apply filtered_students_elem_of. split; [left | by left]. }
  split; [exact H1|]. split; [exact H2|]. split; [exact H3|].
  exact (proj1 (proj2 (delete_button_removes (λ s, s) ""
                         (class_of info_A) info_A w_two H1 H2 H3))).
Defined.

(** ** The attendance page *)

Section AttendancePage.
Implicit Types (w : World) (d : Dict.t Student) (info : Student).
Implicit Types (data : list (string * list string)).

(** The nested loop visits the pairs (date, name) of the ledger in turn. *)
Lemma group_attendance_fold d data g :
  fold_left
    (λ grouped (entry : string * list string),
       fold_left
         (λ grouped name,
            match Dict.get name d with
            | Some info =>
                setdefault_append (class_of info, entry.1) info grouped
            | None => grouped
            end)
         entry.2 grouped)
    data g
  = fold_left
      (λ grouped (x : string * string),
         match (λ info, ((class_of info, x.1), info)) <$> Dict.get x.2 d with
         | Some p => setdefault_append p.1 p.2 grouped
         | None => grouped
         end)
      (data ≫= (λ entry, (λ name, (entry.1, name)) <$> entry.2)) g.
Proof.
  revert g. induction data as [|[day names] data IH]; intros g; [done|].
  cbn [fold_left]. rewrite IH. rewrite bind_cons, fold_left_app. f_equal.
  cbn [fst snd]. clear IH. revert g.
  induction names as [|n names IHn]; intros g; [done|].
  cbn [fold_left fmap list_fmap fst snd]. rewrite IHn.
  by destruct (Dict.get n d).
Qed.

Lemma omap_day d data (c : class_key) (day : string) :
  NoDup data.*1 →
  omap (λ x : string * string,
          match (λ info, ((class_of info, x.1), info)) <$> Dict.get x.2 d with
          | Some p => if decide (p.1 = (c, day)) then Some p.2 else None
          | None => None
          end)
       (data ≫= (λ entry, (λ name, (entry.1, name)) <$> entry.2))
  = filter (λ info, class_of info = c)
      (omap (λ n, Dict.get n d) (group_get day data)).
Proof.
  assert (Hentry : ∀ (dy : string) (names : list string),
    omap (λ x : string * string,
            match (λ info, ((class_of info, x.1), info)) <$> Dict.get x.2 d with
            | Some p => if decide (p.1 = (c, day)) then Some p.2 else None
            | None => None
            end)
         ((λ name, (dy, name)) <$> names)
    = if decide (day = dy)
      then filter (λ info, class_of info = c) (omap (λ n, Dict.get n d) names)
      else []).
  { intros dy names. induction names as [|n names IHn].
    - by destruct (decide (day = dy)).
    - rewrite fmap_cons. cbn [omap list_omap fst snd]. rewrite IHn.
      destruct (Dict.get n d) as [info|]; cbn [fmap option_fmap option_map fst snd].
      + destruct (decide (day = dy)) as [->|Hne].
        * rewrite filter_cons.
          destruct (decide (class_of info = c)) as [->|Hc].
          -- by rewrite decide_True.
          -- rewrite decide_False; [done | congruence].
        * rewrite decide_False; [done | congruence].
      + by destruct (decide (day = dy)). }
  induction data as [|[dy names] data IH]; intros Hnd; [done|].
  rewrite bind_cons, omap_app. cbn [fst snd]. rewrite Hentry.
  apply NoDup_cons in Hnd as [Hnin Hnd]. cbn [group_get].
  destruct (decide (day = dy)) as [->|Hne].
  - rewrite IH by done. rewrite (group_get_absent dy data) by done.
    cbn. by rewrite app_nil_r.
  - by rewrite IH.
Qed.

Lemma group_get_map_to_list (m : gmap string (list string)) (day : string) :
  group_get day (map_to_list m) = default [] (m !! day).
Proof.
  pose proof (NoDup_fst_map_to_list m) as Hnd.
  destruct (m !! day) as [l|] eqn:Hl; cbn.
  - apply group_get_elem_of; [done|]. by apply elem_of_map_to_list.
  - apply group_get_absent. intros [[dy l] [-> Hin]]%list_elem_of_fmap.
    apply elem_of_map_to_list in Hin. cbn in Hl. congruence.
Qed.

Lemma group_attendance_get d data (c : class_key) (day : string) :
  NoDup data.*1 →
  group_get (c, day) (group_attendance d data)
  = filter (λ info, class_of info = c)
      (omap (λ n, Dict.get n d) (group_get day data)).
Proof.
  intros Hnd. unfold group_attendance.
  rewrite group_attendance_fold.
  rewrite (fold_group_get
             (λ x : string * string,
                (λ info, ((class_of info, x.1), info)) <$> Dict.get x.2 d)).
  cbn [group_get app]. by apply omap_day.
Qed.

Lemma group_attendance_NoDup d data : NoDup (group_attendance d data).*1.
Proof.
  unfold group_attendance. rewrite group_attendance_fold.
  apply (fold_group_NoDup
           (λ x : string * string,
              (λ info, ((class_of info, x.1), info)) <$> Dict.get x.2 d)).
  constructor.
Qed.

(** What a non-empty ledger puts on the page. *)
Lemma show_attendance_tables w :
  get_attendance w ≠ ∅ →
  ∃ page,
    show_attendance w = Tables page
    ∧ page ≡ₚ group_attendance (students w) (map_to_list (get_attendance w))
    ∧ ∀ c day,
        group_get (c, day) page
        = filter (λ info, class_of info = c)
            (omap (λ n, Dict.get n (students w)) (query day w)).
Proof.
  intros Hne. unfold show_attendance. rewrite decide_False by done.
  eexists. split; [reflexivity|]. split.
  - apply sorted_items_Permutation.
  - intros c day.
    rewrite sorted_items_group_get by apply group_attendance_NoDup.
    rewrite group_attendance_get by apply NoDup_fst_map_to_list.
    by rewrite group_get_map_to_list.
Qed.

Lemma recorded_ledger_nonempty w day n :
  n ∈ query day w → get_attendance w ≠ ∅.
Proof.
  unfold query. intros Hin Hempty. rewrite Hempty, lookup_empty in Hin.
  by apply elem_of_nil in Hin.
Qed.
End AttendancePage.

(** X16. The attendance page.  With an empty ledger it shows the notice
    and no table.  Otherwise it shows one table per (year, standard,
    division, date), in ascending order of that key and each key once; the
    table of a class and a date lists exactly the names recorded in the
    ledger for that date that are still in the directory and belong to the
    class, in the order in which they were recorded. *)
Theorem show_attendance_content (w : World) :
  (get_attendance w = ∅ → show_attendance w = NoAttendanceYet)
  ∧ (get_attendance w ≠ ∅ →
     ∃ page,
       show_attendance w = Tables page
       ∧ Sorted (key_le compare_day) page
       ∧ NoDup page.*1
       ∧ ∀ c day,
           group_get (c, day) page
           = filter (λ info, class_of info = c)
               (omap (λ n, Dict.get n (students w)) (query day w))).
Proof.
  split.
  - intros Hempty. unfold show_attendance. by rewrite decide_True.
  - intros Hne.
    destruct (show_attendance_tables w Hne) as (page & Hpage & Hperm & Hget).
    exists page. split; [done|]. split_and!; [| |done].
    + unfold show_attendance in Hpage. rewrite decide_False in Hpage by done.
      injection Hpage as <-.
      apply sorted_items_Sorted, compare_day_antisym.
    + rewrite Hperm. apply group_attendance_NoDup.
Qed.

Lemma show_attendance_content_witness :
  get_attendance fresh = ∅
  ∧ show_attendance fresh = NoAttendanceYet
  ∧ get_attendance w_present ≠ ∅
  ∧ ∃ page, show_attendance w_present = Tables page
            ∧ group_get (class_of info_A, "2024-01-01") page = [info_A]
            ∧ group_get (class_of info_A, "2024-01-02") page = [].
Proof.
  assert (H1 : get_attendance fresh = ∅) by reflexivity.
  assert (H2 : get_attendance w_present ≠ ∅).
  { apply (recorded_ledger_nonempty w_present "2024-01-01" "A").
    apply mark_attendance_recorded. }
  split; [exact H1|].
  split; [exact (proj1 (show_attendance_content fresh) H1)|].
  split; [exact H2|].
  destruct (proj2 (show_attendance_content w_present) H2)
    as (page & Hpage & _ & _ & Hget).
  exists page. split; [exact Hpage|].
  rewrite !Hget. split; reflexivity.
Defined.

(** X17. A student the recognition cycle has just matched is on the
    attendance page right away, in the table of the student's class for
    today. *)
Theorem recognised_student_is_shown
    (today : string) (q : vec) (w : World) (id : string) (s : R)
    (Hmatch : fst (recognize today q w) = Ok (Matched id s)) :
  ∃ info page,
    find id w = Some info
    ∧ show_attendance (snd (recognize today q w)) = Tables page
    ∧ info ∈ group_get (class_of info, today) page.
Proof.
  rewrite recognize_identify in Hmatch |- *. cbn [fst snd] in *.
  rewrite Hmatch.
  apply identify_Matched_listed in Hmatch as (Hmem & _ & _).
  apply DictFacts.mem_get in Hmem as [info Hinfo].
  pose proof (mark_attendance_recorded today id w) as Hrec.
  destruct (show_attendance_tables (mark_attendance today id w))
    as (page & Hpage & _ & Hget).
  { by apply (recorded_ledger_nonempty _ today id). }
  exists info, page. split; [done|]. split; [done|].
  rewrite Hget. apply list_elem_of_filter. split; [done|].
  apply list_elem_of_omap. exists id. split; [done|]. exact Hinfo.
Qed.

Lemma recognised_student_is_shown_witness :
  fst (recognize "2024-01-01" emb_A w_enrolled) = Ok (Matched "A" 1%R)
  ∧ ∃ info page,
      find "A" w_enrolled = Some info
      ∧ show_attendance (snd (recognize "2024-01-01" emb_A w_enrolled))
        = Tables page
      ∧ info ∈ group_get (class_of info, "2024-01-01") page.
Proof.
  assert (Hpos : (0 < dot emb_A emb_A)%R) by (cbn; lra).
  assert (H : fst (recognize "2024-01-01" emb_A w_enrolled)
              = Ok (Matched "A" 1%R)).
  { rewrite recognize_identify. cbn [fst].
    rewrite identify_scan. unfold w_enrolled, register.
    rewrite register_io_unfold. cbn [snd students Dict.set fresh scan].
    cbn. unfold similarity; cbn. rewrite lookup_insert_eq.
    unfold cosine. rewrite decide_True by done.
    replace (1 - (1 - dot emb_A emb_A
                       / sqrt (dot emb_A emb_A * dot emb_A emb_A)))%R
      with 1%R.
    - destruct (Rgt_dec 1 THRESHOLD) as [_|Hn]; [done|].
      destruct Hn. apply threshold_below_one.
    - rewrite sqrt_square by lra. field. lra. }
  split; [exact H|].
  exact (recognised_student_is_shown "2024-01-01" emb_A w_enrolled "A" 1%R H).
Defined.

(** X18. Deleting a student leaves the ledger as it was but takes the
    student off the attendance page: no table of any class or date shows a
    record with the deleted name. *)
Theorem deleted_student_hidden
    (id : string) (info : Student) (w : World)
    (Hinv : keyed_by_name (students w))
    (Henrolled : find id w = Some info) :
  let w' := snd (remove id w) in
  (∀ day, query day w' = query day w)
  ∧ ∀ page c day x,
      show_attendance w' = Tables page →
      x ∈ group_get (c, day) page → name x ≠ id.
Proof.
  rewrite remove_unfold, Henrolled, delete_handler_unfold.
  rewrite (Hinv _ _ Henrolled).
  assert (Hmem : Dict.mem id (students w) = true).
  { apply DictFacts.mem_get. unfold find in Henrolled. eauto. }
  rewrite Hmem. cbn zeta. cbn [snd]. set (w' := mkWorld _ _ _ _).
  split; [done|].
  intros page c day x Hpage Hx.
  assert (Hne : get_attendance w' ≠ ∅).
  { intros Hempty. unfold show_attendance in Hpage.
    by rewrite decide_True in Hpage. }
  destruct (show_attendance_tables w' Hne) as (page' & Hpage' & _ & Hget).
  rewrite Hpage in Hpage'. injection Hpage' as <-.
  rewrite Hget in Hx. apply list_elem_of_filter in Hx as [_ Hx].
  apply list_elem_of_omap in Hx as (n & _ & Hn).
  change (students w') with (Dict.del id (students w)) in Hn.
  pose proof (keyed_by_name_del id _ Hinv _ _ Hn) as Hname.
  rewrite Hname. intros ->. by rewrite DictFacts.get_del_eq in Hn.
Qed.

Lemma deleted_student_hidden_witness :
  keyed_by_name (students w_present)
  ∧ find "A" w_present = Some info_A
  ∧ "A" ∈ query "2024-01-01" (snd (remove "A" w_present))
  ∧ ∃ page, show_attendance (snd (remove "A" w_present)) = Tables page
            ∧ ∀ x, x ∈ group_get (class_of info_A, "2024-01-01") page →
                   name x ≠ "A".
Proof.
  assert (H1 : keyed_by_name (students w_present)).
  { intros k r. cbn. destruct (String.eqb_spec k "A") as [->|]; [|done].
    by intros [= <-]. }
  assert (H2 : find "A" w_present = Some info_A) by reflexivity.
  pose proof (deleted_student_hidden "A" info_A w_present H1 H2)
    as [Hledger Hpage].
  assert (H3 : "A" ∈ query "2024-01-01" (snd (remove "A" w_present))).
  { rewrite Hledger. apply mark_attendance_recorded. }
  split; [exact H1|]. split; [exact H2|]. split; [exact H3|].
  destruct (show_attendance_tables (snd (remove "A" w_present)))
    as (page & Hshow & _ & _).
  { exact (recorded_ledger_nonempty _ _ _ H3). }
  exists page. split; [exact Hshow|].
  intros x Hx. exact (Hpage page _ _ x Hshow Hx).
Defined.

(** ** The ledger through a session *)

Lemma interact_ledger_sound (a : action) (w : World) :
  all_enrolled_have_embedding (load_students w) →
  (∀ day, NoDup (query day w)
          ∧ ∀ n, n ∈ query day w → is_Some (embed_dir w !! n)) →
  ∀ day, NoDup (query day (interact a w))
         ∧ ∀ n, n ∈ query day (interact a w) →
                is_Some (embed_dir (interact a w) !! n).
Proof.
  intros Hall Hled day.
  destruct (torn w) eqn:Ht.
  { rewrite interact_unfold; cbn zeta.
    rewrite Ht, (load_students_torn w Ht). apply Hled. }
  destruct (load_students_disk w) as (_ & He & Ha).
  assert (Hq : ∀ dy, query dy (load_students w) = query dy w).
  { intros dy. unfold query, get_attendance. by rewrite Ha. }
  destruct (Hled day) as [Hnd Hemb].
  assert (Hkeep : ∀ n, n ∈ query day w →
                       is_Some (embed_dir (interact a w) !! n)).
  { intros n Hn. by apply interact_embeddings_kept, Hemb. }
  destruct a as [n s dv y r c emb|info|today q].
  - assert (Hsame : query day (interact (Enroll n s dv y r c emb) w)
                    = query day w).
    { rewrite interact_unfold; cbn zeta. rewrite Ht.
      destruct (String.eqb n ""); [apply Hq|].
      destruct (enrollable n); [|apply Hq].
      unfold query, get_attendance; cbn. by rewrite Ha. }
    rewrite Hsame. split; [done | exact Hkeep].
  - assert (Hsame : query day (interact (Delete info) w) = query day w).
    { rewrite interact_unfold; cbn zeta. rewrite Ht.
      destruct (Dict.mem _ _); [|apply Hq].
      unfold query, get_attendance; cbn. by rewrite Ha. }
    rewrite Hsame. split; [done | exact Hkeep].
  - pose proof (interact_unfold (Recognize today q) w) as Hi.
    cbv zeta in Hi. rewrite Ht in Hi. cbv beta iota in Hi.
    destruct (identify q (load_students w)) as [[id sc|]|x] eqn:Hid;
      [|rewrite Hi, Hq; split; [done|]; intros n Hn;
        rewrite He; by apply Hemb..].
    assert (Hq' : query day (interact (Recognize today q) w) =
                  if decide (day = today)
                  then if bool_decide (id ∈ query today w)
                       then query today w else query today w ++ [id]
                  else query day w).
    { rewrite Hi. unfold query at 1. rewrite mark_attendance_lookup.
      rewrite !Hq. case_decide; [done|]. by rewrite <- Hq. }
    rewrite Hq'. clear Hq'.
    destruct (decide (day = today)) as [->|Hne]; [|split; [done | exact Hkeep]].
    case_bool_decide as Hin; [split; [done | exact Hkeep]|].
    split.
    + apply NoDup_app. split_and!; [done | | apply NoDup_singleton].
      by intros x Hx ->%list_elem_of_singleton.
    + intros n [Hn| ->%list_elem_of_singleton]%elem_of_app; [by apply Hkeep|].
      rewrite Hi. cbn. apply Hall.
      by apply identify_Matched_listed in Hid as [? _].
Qed.

(** X19. In any state reached through a session from one where every
    listed student has an embedding and the ledger is sound, the ledger is
    still sound: no date lists a name twice, and every name in the ledger
    has an embedding file (it was enrolled when it was recorded, and
    embeddings are never removed). *)
Theorem session_ledger_sound (acts : list action) (w : World)
    (Hsync : in_sync w)
    (Hall : all_enrolled_have_embedding w)
    (Hled : ∀ day, NoDup (query day w)
                   ∧ ∀ n, n ∈ query day w → is_Some (embed_dir w !! n)) :
  ∀ day, NoDup (query day (session acts w))
         ∧ ∀ n, n ∈ query day (session acts w) →
                is_Some (embed_dir (session acts w) !! n).
Proof.
  revert w Hsync Hall Hled.
  induction acts as [|a acts IH]; intros w Hsync Hall Hled; [done|].
  rewrite session_cons. apply IH.
  - apply interact_in_sync.
  - apply interact_enrolled_have_embedding. by rewrite Hsync.
  - apply interact_ledger_sound; [by rewrite Hsync | done].
Qed.

Lemma session_ledger_sound_witness :
  in_sync fresh
  ∧ all_enrolled_have_embedding fresh
  ∧ (∀ day, NoDup (query day fresh)
            ∧ ∀ n, n ∈ query day fresh → is_Some (embed_dir fresh !! n))
  ∧ NoDup (query "2024-01-01"
             (session [Enroll "A" "5" "B" "2024" "7" "100" emb_A;
                       Recognize "2024-01-01" emb_A;
                       Recognize "2024-01-01" emb_A] fresh)).
Proof.
  assert (H1 : all_enrolled_have_embedding fresh) by (intros k; discriminate).
  assert (H2 : ∀ day, NoDup (query day fresh)
                 ∧ ∀ n, n ∈ query day fresh → is_Some (embed_dir fresh !! n)).
  { intros day. unfold query, get_attendance; cbn. rewrite lookup_empty; cbn.
    split; [constructor | by intros n ?%elem_of_nil]. }
  split; [exact in_sync_fresh|]. split; [exact H1|]. split; [exact H2|].
  exact (proj1 (session_ledger_sound _ fresh in_sync_fresh H1 H2
                  "2024-01-01")).
Defined.

(** ** Reading the ledger *)

Lemma query_lookup (w : World) (d : string) (n : string) :
  n ∈ query d w ↔ ∃ l, get_attendance w !! d = Some l ∧ n ∈ l.
Proof.
  unfold query. destruct (get_attendance w !! d) as [l|]; cbn.
  - split; [eauto | by intros (l' & [= <-] & ?)].
  - split; [by intros ?%elem_of_nil | by intros (l' & ? & _)].
Qed.

Lemma mark_all_lookup_None (marks : list (string * string)) (w : World)
    (d : string) :
  get_attendance (mark_all marks w) !! d = None ↔
  get_attendance w !! d = None ∧ d ∉ marks.*1.
Proof.
  revert w. induction marks as [|[day n] marks IH]; intros w; cbn.
  - split; [intros H; split; [done | by intros ?%elem_of_nil] | by intros [? _]].
  - unfold mark_all in IH. rewrite IH, mark_attendance_lookup, not_elem_of_cons.
    cbn. case_decide as Hd; [subst day|]; naive_solver.
Qed.

Lemma mark_all_kept (marks : list (string * string)) (w : World)
    (d n : string) :
  n ∈ query d w → n ∈ query d (mark_all marks w).
Proof.
  revert w. induction marks as [|[day m] marks IH]; intros w Hn; [done|].
  cbn. apply IH. clear IH. unfold query at 1.
  rewrite mark_attendance_lookup. case_decide as Hd; [subst day|done].
  cbn. case_bool_decide; [done | set_solver].
Qed.

Lemma mark_all_recorded (marks : list (string * string)) (w : World)
    (d n : string) :
  (d, n) ∈ marks → n ∈ query d (mark_all marks w).
Proof.
  revert w. induction marks as [|[day m] marks IH]; intros w;
    [by intros ?%elem_of_nil|].
  intros [[= <- <-]|Hin]%elem_of_cons; cbn.
  - apply mark_all_kept, mark_attendance_recorded.
  - by apply IH.
Qed.

(** C9. Reading the ledger where nothing was recorded.  With no attendance
    file, [get_attendance] returns the empty mapping (line 74 tests for
    the file, the read has no failing case) and the page shows its notice.
    After any run of recognitions, a date has no entry in the mapping
    exactly when it had none before and nothing was recorded for it, and
    for such a date no table of the page lists anybody; a date with
    recorded activity does have its entry, with every name recorded. *)
Theorem absent_date_reads_empty
    (marks : list (string * string)) (w : World) (d : string) :
  let w' := mark_all marks w in
  (attendance_file w = None →
     get_attendance w = ∅ ∧ show_attendance w = NoAttendanceYet)
  ∧ (get_attendance w' !! d = None ↔
     get_attendance w !! d = None ∧ d ∉ marks.*1)
  ∧ (get_attendance w' !! d = None →
     ∀ page c, show_attendance w' = Tables page →
               group_get (c, d) page = [])
  ∧ (∀ n, (d, n) ∈ marks →
          ∃ l, get_attendance w' !! d = Some l ∧ n ∈ l).
Proof.
  cbn zeta. split_and!.
  - intros Hnone.
    assert (Hempty : get_attendance w = ∅)
      by (unfold get_attendance; by rewrite Hnone).
    split; [done|]. unfold show_attendance. by rewrite decide_True.
  - apply mark_all_lookup_None.
  - intros Habsent page c Hshow.
    assert (Hne : get_attendance (mark_all marks w) ≠ ∅).
    { intros Hempty. unfold show_attendance in Hshow.
      by rewrite decide_True in Hshow. }
    destruct (show_attendance_tables _ Hne) as (page' & Hshow' & _ & Hget).
    rewrite Hshow in Hshow'. injection Hshow' as <-.
    rewrite Hget. unfold query. by rewrite Habsent.
  - intros n Hin. apply query_lookup. by apply mark_all_recorded.
Qed.

Lemma absent_date_reads_empty_witness :
  attendance_file w_enrolled = None
  ∧ get_attendance w_enrolled = ∅
  ∧ show_attendance w_enrolled = NoAttendanceYet
  ∧ get_attendance (mark_all [("2024-01-01", "A")] w_enrolled)
      !! "2024-01-02" = None
  ∧ (∃ page,
       show_attendance (mark_all [("2024-01-01", "A")] w_enrolled)
       = Tables page
       ∧ group_get (class_of info_A, "2024-01-02") page = []
       ∧ group_get (class_of info_A, "2024-01-01") page = [info_A])
  ∧ ∃ l, get_attendance (mark_all [("2024-01-01", "A")] w_enrolled)
           !! "2024-01-01" = Some l ∧ "A" ∈ l.
Proof.
  pose proof (absent_date_reads_empty [("2024-01-01", "A")] w_enrolled
                "2024-01-02") as (Hfresh & Hiff & Hpage & _).
  pose proof (absent_date_reads_empty [("2024-01-01", "A")] w_enrolled
                "2024-01-01") as (_ & _ & _ & Hrec).
  cbn zeta in *.
  assert (H1 : attendance_file w_enrolled = None) by reflexivity.
  assert (H2 : get_attendance (mark_all [("2024-01-01", "A")] w_enrolled)
                 !! "2024-01-02" = None).
  { apply Hiff. split; [reflexivity|].
    cbn. by intros [=]%list_elem_of_singleton. }
  destruct (Hrec "A") as (l & Hl & HA); [left|].
  split; [exact H1|]. split; [exact (proj1 (Hfresh H1))|].
  split; [exact (proj2 (Hfresh H1))|]. split; [exact H2|]. split.
  - destruct (show_attendance_tables
                (mark_all [("2024-01-01", "A")] w_enrolled))
      as (page & Hshow & _ & Hget).
    { intros Hempty. rewrite Hempty, lookup_empty in Hl. discriminate. }
    exists page. split; [exact Hshow|].
    split; [exact (Hpage H2 page _ Hshow)|].
    rewrite Hget. reflexivity.
  - exists l. split; [exact Hl | exact HA].
Defined.
